(** * py_dep_merger: the dependency merger of [gradio_app.py]

    A shallow embedding of the resolution core of [gradio_app.py]
    ([parse_requirements], [merge_specifiers], [get_available_versions],
    [select_version], [analyze_requirements], [compare_requirements]), of
    the function [update_outputs] of its interface, and the properties of
    its specification.

    Texts are byte strings ([string]); Python [dict]s are [gmap]s and Python
    [set]s are [gset]s (the program never observes their iteration order
    without sorting first).  The package index is a parameter of the
    functions that query it, and the [packaging] library an interface with
    a reference implementation.

    The definitions come first: the built-ins ([Py]), the library
    interface ([Packaging]), the program (sections [Program] and
    [Interface]), the words of the statements, the reference implementation
    ([Pep440]) and the data of the scenarios ([Scenario],
    [Scenario_more]).  The facts follow. *)

From Stdlib Require Import Ascii String DecimalString.
From stdpp Require Import gmap strings list sorting.

Local Open Scope string_scope.

(** ** Python built-ins used by the program *)

Module Py.

(** [str.isspace] on the ASCII range: tab, line feed, vertical tab, form
    feed, carriage return, the separators 0x1c-0x1f and the space. *)
Definition is_space (c : ascii) : bool :=
  match c with
  | "009" | "010" | "011" | "012" | "013"
  | "028" | "029" | "030" | "031" | " " => true
  | _ => false
  end%char.

(** The line boundaries of [str.splitlines] on the ASCII range. *)
Definition is_linebreak (c : ascii) : bool :=
  match c with
  | "010" | "011" | "012" | "013" | "028" | "029" | "030" => true
  | _ => false
  end%char.

Fixpoint lstrip (s : string) : string :=
  match s with
  | String c s' => if is_space c then lstrip s' else s
  | EmptyString => EmptyString
  end.

Fixpoint rstrip (s : string) : string :=
  match s with
  | String c s' =>
      match rstrip s' with
      | EmptyString => if is_space c then EmptyString else String c EmptyString
      | r => String c r
      end
  | EmptyString => EmptyString
  end.

Definition strip (s : string) : string := rstrip (lstrip s).

(** [s.splitlines()]: [cur] is the line being read, in reverse.  A carriage
    return followed by a line feed is one boundary; a last line without a
    boundary is kept only when it is not empty. *)
Fixpoint splitlines_go (cur : string) (s : string) : list string :=
  match s with
  | EmptyString =>
      match cur with EmptyString => [] | _ => [String.rev cur] end
  | String c s' =>
      if is_linebreak c then
        String.rev cur ::
          match c, s' with
          | "013"%char, String "010"%char s'' => splitlines_go EmptyString s''
          | _, _ => splitlines_go EmptyString s'
          end
      else splitlines_go (String c cur) s'
  end.

Definition splitlines (s : string) : list string := splitlines_go EmptyString s.

Definition is_upper (c : ascii) : bool :=
  let n := nat_of_ascii c in (65 <=? n)%nat && (n <=? 90)%nat.
Definition is_lower (c : ascii) : bool :=
  let n := nat_of_ascii c in (97 <=? n)%nat && (n <=? 122)%nat.
Definition is_digit (c : ascii) : bool :=
  let n := nat_of_ascii c in (48 <=? n)%nat && (n <=? 57)%nat.

Definition lower_char (c : ascii) : ascii :=
  if is_upper c then ascii_of_nat (nat_of_ascii c + 32) else c.

(** [s.lower()] on the ASCII range. *)
Fixpoint lower (s : string) : string :=
  match s with
  | String c s' => String (lower_char c) (lower s')
  | EmptyString => EmptyString
  end.

(** [s.startswith(p)] *)
Definition startswith (p s : string) : bool := String.prefix p s.

(** [sep.join(l)] *)
Fixpoint join (sep : string) (l : list string) : string :=
  match l with
  | [] => ""
  | [x] => x
  | x :: l' => x ++ sep ++ join sep l'
  end.

(** [s.split(sep)] for a one-character separator; [cur] is the field being
    read, in reverse. *)
Fixpoint split_go (sep : ascii) (cur : string) (s : string) : list string :=
  match s with
  | EmptyString => [String.rev cur]
  | String c s' =>
      if Ascii.eqb c sep then String.rev cur :: split_go sep EmptyString s'
      else split_go sep (String c cur) s'
  end.

Definition split (sep : ascii) (s : string) : list string :=
  split_go sep EmptyString s.

(** Truth value of a string, of a list, and of a value that may be [None]. *)
Definition truthy_str (s : string) : bool :=
  match s with EmptyString => false | _ => true end.

Definition truthy_list {A} (l : list A) : bool :=
  match l with [] => false | _ => true end.

(** [sorted(l)]: Python's sort is stable and compares with [<] only.  The
    stable insertion sort is the same function: [x], which stood before the
    elements already sorted, goes before the first of them that is not
    smaller than it. *)
Fixpoint insert {A} (lt : A → A → bool) (x : A) (l : list A) : list A :=
  match l with
  | [] => [x]
  | y :: l' => if lt y x then y :: insert lt x l' else x :: l
  end.

Definition sorted {A} (lt : A → A → bool) (l : list A) : list A :=
  foldr (insert lt) [] l.

(** [sorted(l, reverse=True)]: sorted as if each comparison were reversed,
    which keeps elements that compare equal in their original order. *)
Definition sorted_reverse {A} (lt : A → A → bool) (l : list A) : list A :=
  sorted (λ a b, lt b a) l.

(** [<] on pairs (Python tuples of length two): the first components
    decide unless they are equal. *)
Definition pair_ltb (a b : string * string) : bool :=
  if decide (a.1 = b.1) then String.ltb a.2 b.2 else String.ltb a.1 b.1.

End Py.

(** ** The [packaging] library

    The program is written against [packaging.version] and
    [packaging.specifiers].  Versions and single specifier clauses are the
    library's own business, and their grammar has changed between releases
    of the library; the program only relies on the interface below.  The
    module [Pep440] further down implements it for final releases. *)

Class Packaging := {
  (** [packaging.version.Version] *)
  Version : Type;
  (** [version.parse(s)]; [None] stands for [InvalidVersion] *)
  version_parse : string → option Version;
  (** [v < w] *)
  version_lt : Version → Version → bool;
  (** [str(v)] *)
  version_str : Version → string;
  (** [packaging.specifiers.Specifier], one clause such as [>=1.0] *)
  Specifier : Type;
  (** [Specifier(s)]; [None] stands for [InvalidSpecifier] *)
  specifier_parse : string → option Specifier;
  (** [a == b] on clauses *)
  specifier_eqb : Specifier → Specifier → bool;
  (** [str(a)] *)
  specifier_str : Specifier → string;
  (** [item in s] for the specifier set whose clauses are [specs] *)
  specifiers_contain : list Specifier → string → bool;
  (** Versions are ordered by their comparison key. *)
  version_lt_asym : ∀ v w, version_lt v w = true → version_lt w v = false;
  version_lt_cotrans : ∀ v w u,
    version_lt v w = true → version_lt v u = true ∨ version_lt u w = true;
}.

(** Exceptions that the program does not catch. *)
Inductive exn := TypeError | AttributeError | InvalidVersion.

Inductive result (A : Type) :=
  | Ok (a : A)
  | Raise (e : exn).
Arguments Ok {A} a.
Arguments Raise {A} e.

Global Instance result_ret : MRet result := λ A a, Ok a.
Global Instance result_bind : MBind result := λ A B f m,
  match m with Ok a => f a | Raise e => Raise e end.

(** One row of the report: the [dict] appended to [results]. *)
Record Row := {
  Package : string;
  Status : string;
  Compatible_Interval : string;
  Selected_Version : string;
  Reason : string;
}.

(** The values that travel in the tuples returned by
    [analyze_requirements] and [compare_requirements]: [None], a string, or
    the data frame built from the rows. *)
Inductive value :=
  | VNone
  | VStr (s : string)
  | VFrame (rows : list Row).

Definition value_of_option (o : option string) : value :=
  match o with Some s => VStr s | None => VNone end.

Definition RESOLVED : string := "✅ Resolved".
Definition UNRESOLVED : string := "⚠️ Unresolved".
Definition CONFLICT : string := "❌ Conflict".

Section Program.
Context `{Packaging}.

(** *** [packaging.specifiers.SpecifierSet]

    [_specs] is a [frozenset] of clauses: a list without two equal clauses.
    The program never sets the [prereleases] override, which stays [None]
    through [&]. *)
Record SpecifierSet := { _specs : list Specifier }.

(** [frozenset(l)]: of clauses that are equal the first one stays. *)
Fixpoint frozenset (l : list Specifier) : list Specifier :=
  match l with
  | [] => []
  | a :: l' => a :: filter (λ b, specifier_eqb b a = false) (frozenset l')
  end.

(** [s1 | s2] on sets of clauses. *)
Definition set_union (s1 s2 : list Specifier) : list Specifier :=
  s1 ++ filter (λ b, existsb (specifier_eqb b) s1 = false) s2.

(** [SpecifierSet(specifiers)]: the clauses are separated by commas,
    stripped, the empty ones dropped.  [None] stands for
    [InvalidSpecifier]. *)
Definition SpecifierSet_new (specifiers : string) : option SpecifierSet :=
  let split_specifiers :=
    filter (λ s, Py.truthy_str s = true)
           (map Py.strip (Py.split ","%char specifiers)) in
  parsed ← mapM specifier_parse split_specifiers;
  Some {| _specs := frozenset parsed |}.

(** [SpecifierSet("")] *)
Definition unconstrained : SpecifierSet := {| _specs := [] |}.

(** [a & b] *)
Definition SpecifierSet_and (a b : SpecifierSet) : SpecifierSet :=
  {| _specs := set_union (_specs a) (_specs b) |}.

(** [len(a)]; a specifier set is true when it has a clause. *)
Definition SpecifierSet_len (a : SpecifierSet) : nat := length (_specs a).
Definition SpecifierSet_bool (a : SpecifierSet) : bool :=
  negb (SpecifierSet_len a =? 0)%nat.

(** [str(a)] *)
Definition SpecifierSet_str (a : SpecifierSet) : string :=
  Py.join "," (Py.sorted String.ltb (map specifier_str (_specs a))).

(** [item in a] *)
Definition SpecifierSet_contains (a : SpecifierSet) (item : string) : bool :=
  specifiers_contain (_specs a) item.

(** *** [parse_requirements] *)

(** A character of the class [[a-zA-Z0-9_-]]. *)
Definition is_name_char (c : ascii) : bool :=
  Py.is_lower c || Py.is_upper c || Py.is_digit c
  || Ascii.eqb c "_"%char || Ascii.eqb c "-"%char.

(** The longest prefix of name characters, and the rest. *)
Fixpoint span_name (s : string) : string * string :=
  match s with
  | String c s' =>
      if is_name_char c
      then let '(n, r) := span_name s' in (String c n, r)
      else (EmptyString, s)
  | EmptyString => (EmptyString, EmptyString)
  end.

(** [re.match] of the line against the pattern of the program: group 1 is
    the longest non-empty prefix of name characters, group 2 the rest of the
    line (which holds no line feed, so the dot takes all that is left).
    [None] when the line does not start with a name character. *)
Definition re_match (line : string) : option (string * string) :=
  let '(n, r) := span_name line in
  match n with EmptyString => None | _ => Some (n, r) end.

(** One turn of the loop over the lines: [inl msg] is the early
    [return None, msg]. *)
Definition parse_line (dependencies : gmap string SpecifierSet) (line : string)
  : string + gmap string SpecifierSet :=
  let line := Py.strip line in
  if Py.truthy_str line && negb (Py.startswith "#" line) then
    match re_match line with
    | Some (g1, g2) =>
        let pkg_name := Py.lower g1 in
        let spec := Py.strip g2 in
        if Py.truthy_str spec then
          match SpecifierSet_new spec with
          | Some spec_set => inr (<[pkg_name := spec_set]> dependencies)
          | None => inl ("Invalid specifier for " ++ pkg_name ++ ": " ++ spec)
          end
        else inr (<[pkg_name := unconstrained]> dependencies)
    | None => inr dependencies
    end
  else inr dependencies.

Fixpoint parse_lines (dependencies : gmap string SpecifierSet)
    (lines : list string) : string + gmap string SpecifierSet :=
  match lines with
  | [] => inr dependencies
  | line :: lines' =>
      match parse_line dependencies line with
      | inl msg => inl msg
      | inr dependencies' => parse_lines dependencies' lines'
      end
  end.

(** The pair [(dependencies, error)] that the function returns. *)
Definition parse_requirements (file_content : string)
  : option (gmap string SpecifierSet) * option string :=
  match parse_lines ∅ (Py.splitlines file_content) with
  | inl msg => (None, Some msg)
  | inr dependencies => (Some dependencies, None)
  end.

(** *** [merge_specifiers]

    [&] raises no [InvalidSpecifier], so the handler is never entered. *)
Definition merge_specifiers (spec1 spec2 : SpecifierSet) : option SpecifierSet :=
  let merged := SpecifierSet_and spec1 spec2 in
  if negb (SpecifierSet_bool merged) then None else Some merged.

(** *** The world outside

    [pypi_releases pkg] is what the package index answers for [pkg]: the
    keys of the [releases] table, as the strings they are, in the order of
    the table; [None] when the request fails or the table is missing (the
    exceptions that [get_available_versions] catches).  The index speaks
    its JSON protocol: a body that is read is an object, and its
    [releases] member, when it has one, a table.  [temp_file] is the fresh
    path under the temporary directory where the merged manifest is
    written. *)
Record World := {
  pypi_releases : string → option (list string);
  temp_file : string;
}.

(** *** [get_available_versions]

    The keys are parsed inside the [try], whose handlers catch the failure
    of the request and the missing table only: a key that is not a version
    makes [version.parse] raise [InvalidVersion], which escapes. *)
Definition get_available_versions (w : World) (package_name : string)
  : result (list Version) :=
  match pypi_releases w package_name with
  | Some keys =>
      match mapM version_parse keys with
      | Some versions => Ok (Py.sorted_reverse version_lt versions)
      | None => Raise InvalidVersion
      end
  | None => Ok []
  end.

(** *** [select_version]

    [spec_set] may be [None], as [merge_specifiers] may return it: the
    membership test then raises [TypeError]. *)
Definition select_version (w : World) (spec_set : option SpecifierSet)
    (package_name : string) : result (option Version * string) :=
  available_versions ← get_available_versions w package_name;
  if negb (Py.truthy_list available_versions) then
    Ok (None, "No versions available")
  else
    match spec_set with
    | None => Raise TypeError
    | Some spec_set =>
        let test ver := SpecifierSet_contains spec_set (version_str ver) in
        match find test available_versions with
        | Some ver =>
            Ok (Some ver, "Selected largest version: " ++ version_str ver)
        | None =>
            match find test (Py.sorted version_lt available_versions) with
            | Some ver =>
                Ok (Some ver,
                    "No larger version found; selected smallest version: "
                      ++ version_str ver)
            | None =>
                Ok (None, "No compatible version found in available versions")
            end
        end
    end.

(** *** The selection as the specification words it

    [maximum lt l] is Python's [max(l)]: the first of the greatest elements
    of [l], [None] when [l] is empty. *)
Fixpoint maximum_from {A} (lt : A → A → bool) (best : A) (l : list A) : A :=
  match l with
  | [] => best
  | x :: l' => maximum_from lt (if lt best x then x else best) l'
  end.

Definition maximum {A} (lt : A → A → bool) (l : list A) : option A :=
  match l with
  | [] => None
  | x :: l' => Some (maximum_from lt x l')
  end.

(** One pass: the maximum available version satisfying the constraint
    set, or none. *)
Definition select_version_one_pass (w : World) (spec_set : SpecifierSet)
    (package_name : string) : result (option Version * string) :=
  available_versions ← get_available_versions w package_name;
  Ok (if negb (Py.truthy_list available_versions) then
        (None, "No versions available")
      else
        match maximum version_lt
                (filter (λ ver, SpecifierSet_contains spec_set
                                  (version_str ver) = true)
                        available_versions) with
        | Some ver =>
            (Some ver, "Selected largest version: " ++ version_str ver)
        | None =>
            (None, "No compatible version found in available versions")
        end).

(** *** [analyze_requirements] *)

(** What the loop over the packages updates. *)
Record loop_state := {
  results : list Row;
  resolved_requirements : gmap string string;
  all_resolved : bool;
}.

(** [str(merged_spec)] *)
Definition merged_str (merged_spec : option SpecifierSet) : string :=
  match merged_spec with
  | Some m => SpecifierSet_str m
  | None => "None"
  end.

(** The end of both branches: a version was selected or not (a version is
    a true value, [None] is not). *)
Definition record_selection (st : loop_state) (pkg interval : string)
    (version_selected : option Version) (reason : string) : loop_state :=
  match version_selected with
  | Some ver =>
      {| results := results st ++
           [{| Package := pkg; Status := RESOLVED;
               Compatible_Interval := interval;
               Selected_Version := version_str ver;
               Reason := reason |}];
         resolved_requirements :=
           <[pkg := version_str ver]> (resolved_requirements st);
         all_resolved := all_resolved st |}
  | None =>
      {| results := results st ++
           [{| Package := pkg; Status := UNRESOLVED;
               Compatible_Interval := interval;
               Selected_Version := "-";
               Reason := reason |}];
         resolved_requirements := resolved_requirements st;
         all_resolved := false |}
  end.

(** The body of the loop, for the package [pkg]. *)
Definition analyze_package (w : World) (deps1 deps2 : gmap string SpecifierSet)
    (st : loop_state) (pkg : string) : result loop_state :=
  let spec1 := default unconstrained (deps1 !! pkg) in
  let spec2 := default unconstrained (deps2 !! pkg) in
  let merged_spec := merge_specifiers spec1 spec2 in
  if negb (SpecifierSet_bool spec1) && negb (SpecifierSet_bool spec2) then
    '(version_selected, reason) ← select_version w (Some unconstrained) pkg;
    Ok (record_selection st pkg "Any version" version_selected reason)
  else
    if bool_decide (merged_spec = None)
       && (SpecifierSet_bool spec1 || SpecifierSet_bool spec2) then
      Ok {| results := results st ++
              [{| Package := pkg; Status := CONFLICT;
                  Compatible_Interval :=
                    SpecifierSet_str spec1 ++ " vs " ++ SpecifierSet_str spec2;
                  Selected_Version := "-";
                  Reason := "Incompatible version constraints" |}];
            resolved_requirements := resolved_requirements st;
            all_resolved := false |}
    else
      '(version_selected, reason) ← select_version w merged_spec pkg;
      Ok (record_selection st pkg (merged_str merged_spec)
            version_selected reason).

Fixpoint analyze_loop (w : World) (deps1 deps2 : gmap string SpecifierSet)
    (st : loop_state) (pkgs : list string) : result loop_state :=
  match pkgs with
  | [] => Ok st
  | pkg :: pkgs' =>
      st' ← analyze_package w deps1 deps2 st pkg;
      analyze_loop w deps1 deps2 st' pkgs'
  end.

(** The line of the merged manifest for one pin. *)
Definition pin_line (item : string * string) : string :=
  item.1 ++ "==" ++ item.2.

(** Truth value of an error slot, and [error1 or error2]. *)
Definition truthy_error (e : option string) : bool :=
  match e with Some s => Py.truthy_str s | None => false end.
Definition error_or (e1 e2 : option string) : option string :=
  if truthy_error e1 then e1 else e2.

(** The tuple [(results_df, resolved_content, download_file, all_resolved)].
    Writing [resolved_content] to [temp_file w] is the only effect. *)
Definition analyze_requirements (w : World) (file1_content file2_content : string)
  : result (value * value * value * bool) :=
  let '(deps1, error1) := parse_requirements file1_content in
  let '(deps2, error2) := parse_requirements file2_content in
  if truthy_error error1 || truthy_error error2 then
    Ok (VNone, VNone, value_of_option (error_or error1 error2), false)
  else
    match deps1, deps2 with
    | Some deps1, Some deps2 =>
        let all_packages : gset string := dom deps1 ∪ dom deps2 in
        st ← analyze_loop w deps1 deps2
               {| results := []; resolved_requirements := ∅;
                  all_resolved := true |}
               (Py.sorted String.ltb (elements all_packages));
        if all_resolved st
           && Py.truthy_list (map_to_list (resolved_requirements st)) then
          let resolved_content :=
            Py.join (String "010" "")
              (map pin_line
                 (Py.sorted Py.pair_ltb
                    (map_to_list (resolved_requirements st)))) in
          Ok (VFrame (results st), VStr resolved_content,
              VStr (temp_file w), all_resolved st)
        else
          Ok (VFrame (results st), VNone, VNone, all_resolved st)
    | _, _ => Raise AttributeError
    end.

(** *** [compare_requirements]

    The contents come from the text boxes: [None] is Python's [None]. *)
Definition truthy_content (c : option string) : bool :=
  match c with Some s => Py.truthy_str s | None => false end.

Definition compare_requirements (w : World)
    (file1_content file2_content : option string)
  : result (value * value * value * bool * value) :=
  if negb (truthy_content file1_content)
     || negb (truthy_content file2_content) then
    Ok (VNone, VNone, VNone, false,
        VStr "Please provide content for both requirements.txt files.")
  else
    '(results_df, resolved_content, download_file, all_resolved) ←
      analyze_requirements w (default "" file1_content)
                             (default "" file2_content);
    match results_df with
    | VStr _ => Ok (VNone, VNone, VNone, false, results_df)
    | _ => Ok (results_df, resolved_content, download_file, all_resolved, VNone)
    end.

End Program.

(** ** Vocabulary of the statements *)

(** [a] may stand before [b]: [b] is not smaller. *)
Definition may_precede {A} (lt : A → A → bool) : relation A :=
  λ a b, lt b a = false.

Section Vocabulary.
Context `{Packaging}.

Implicit Types (w : World) (deps : gmap string SpecifierSet).

(** Descending order: no later version is greater. *)
Definition descending : relation Version := λ a b, version_lt a b = false.

(** The versions that the index lists for a package: the keys of its
    answer, parsed, when they are all versions; no version when the lookup
    fails.  [None] when a key is not a version. *)
Definition listed (w : World) (pkg : string) : option (list Version) :=
  match pypi_releases w pkg with
  | Some keys => mapM version_parse keys
  | None => Some []
  end.

(** The available versions of a package for which the index lists
    versions only. *)
Definition available (w : World) (pkg : string) : list Version :=
  Py.sorted_reverse version_lt (default [] (listed w pkg)).

(** What [select_version] finds with its descending scan. *)
Definition selected (w : World) (spec_set : SpecifierSet) (pkg : string)
  : option Version * string :=
  match available w pkg with
  | [] => (None, "No versions available")
  | _ =>
      match find (λ ver, SpecifierSet_contains spec_set (version_str ver))
                 (available w pkg) with
      | Some ver => (Some ver, "Selected largest version: " ++ version_str ver)
      | None => (None, "No compatible version found in available versions")
      end
  end.

(** The package that a line names, lower-cased: none for a blank line, a
    comment, and a line that does not start with a name character. *)
Definition line_package (line : string) : option string :=
  let line := Py.strip line in
  if Py.truthy_str line && negb (Py.startswith "#" line) then
    '(g1, _) ← re_match line; Some (Py.lower g1)
  else None.

(** The constraint set parsed from a line that names a package: [None]
    when the clause is invalid. *)
Definition line_constraints (line : string) : option SpecifierSet :=
  '(_, g2) ← re_match (Py.strip line);
  if Py.truthy_str (Py.strip g2) then SpecifierSet_new (Py.strip g2)
  else Some unconstrained.

(** The clauses of both manifests for a package, and how the report
    words them. *)
Definition effective deps1 deps2 pkg : SpecifierSet :=
  SpecifierSet_and (default unconstrained (deps1 !! pkg))
                   (default unconstrained (deps2 !! pkg)).

Definition interval deps1 deps2 pkg : string :=
  if negb (SpecifierSet_bool (default unconstrained (deps1 !! pkg)))
     && negb (SpecifierSet_bool (default unconstrained (deps2 !! pkg)))
  then "Any version"
  else SpecifierSet_str (effective deps1 deps2 pkg).

(** The row of a package. *)
Definition row_of w deps1 deps2 pkg : Row :=
  let '(version_selected, reason) :=
    selected w (effective deps1 deps2 pkg) pkg in
  match version_selected with
  | Some ver =>
      {| Package := pkg; Status := RESOLVED;
         Compatible_Interval := interval deps1 deps2 pkg;
         Selected_Version := version_str ver; Reason := reason |}
  | None =>
      {| Package := pkg; Status := UNRESOLVED;
         Compatible_Interval := interval deps1 deps2 pkg;
         Selected_Version := "-"; Reason := reason |}
  end.

Definition is_resolved (r : Row) : bool := bool_decide (Status r = RESOLVED).

(** What a row adds to [resolved_requirements]. *)
Definition pin (r : Row) : string * string := (Package r, Selected_Version r).
Definition add_pin (m : gmap string string) (r : Row) : gmap string string :=
  if is_resolved r then <[Package r := Selected_Version r]> m else m.

(** The state after the turn of the loop for a row. *)
Definition after_row st (r : Row) : loop_state :=
  {| results := results st ++ [r];
     resolved_requirements := add_pin (resolved_requirements st) r;
     all_resolved := all_resolved st && is_resolved r |}.

(** The packages of both manifests, in the order of the loop. *)
Definition packages (deps1 deps2 : gmap string SpecifierSet) : list string :=
  Py.sorted String.ltb (elements (dom deps1 ∪ dom deps2)).

(** The index lists versions only for the packages of both manifests. *)
Definition lists_versions (w : World)
    (deps1 deps2 : gmap string SpecifierSet) : Prop :=
  ∀ pkg, pkg ∈ dom deps1 ∪ dom deps2 → is_Some (listed w pkg).

(** The merged manifest of rows that are all resolved. *)
Definition merged_manifest (rows : list Row) : string :=
  Py.join (String "010" "")
    ((λ r, Package r ++ "==" ++ Selected_Version r) <$> rows).

(** What [analyze_requirements] returns for two texts that parse. *)
Definition report (w : World) (deps1 deps2 : gmap string SpecifierSet)
  : value * value * value * bool :=
  let rows := row_of w deps1 deps2 <$> packages deps1 deps2 in
  if forallb is_resolved rows && Py.truthy_list rows then
    (VFrame rows, VStr (merged_manifest rows), VStr (temp_file w), true)
  else (VFrame rows, VNone, VNone, forallb is_resolved rows).

End Vocabulary.

(** ** The interface: [update_outputs]

    The function that the button of [create_interface] runs.  Its tuple
    feeds the table, the box of the merged manifest, the file to download,
    the accordion of the details ([gr.update(open=...)], here the flag) and
    the box of the error. *)

(** What a run of [update_outputs] ends in: the tuple shown, an exception
    of the functions below it, or the [ValueError] that pandas raises for
    the truth value of a data frame. *)
Inductive shown (A : Type) :=
  | Shown (a : A)
  | Uncaught (e : exn)
  | ValueError.
Arguments Shown {A} a.
Arguments Uncaught {A} e.
Arguments ValueError {A}.

(** Truth value of a [value]; a data frame has none. *)
Definition truthy_value (v : value) : option bool :=
  match v with
  | VNone => Some false
  | VStr s => Some (Py.truthy_str s)
  | VFrame _ => None
  end.

Definition NOT_ALL_RESOLVED : string :=
  "Not all dependencies could be resolved.".

Section Interface.
Context `{Packaging}.

Definition update_outputs (w : World)
    (file1_content file2_content : option string)
  : shown (value * value * value * bool * value) :=
  match compare_requirements w file1_content file2_content with
  | Raise e => Uncaught e
  | Ok (results_df, resolved_content, download_file, all_resolved, error) =>
      match truthy_value error with
      | None => ValueError
      | Some true => Shown (VNone, VNone, VNone, true, error)
      | Some false =>
          match truthy_value resolved_content with
          | None => ValueError
          | Some truthy =>
              Shown (results_df,
                     if truthy then resolved_content
                     else VStr NOT_ALL_RESOLVED,
                     download_file, negb all_resolved, VNone)
          end
      end
  end.

End Interface.

(** ** More vocabulary: the lines of a manifest *)

(** Every character of [s] passes [test]. *)
Fixpoint all_chars (test : ascii → bool) (s : string) : bool :=
  match s with
  | String c s' => test c && all_chars test s'
  | EmptyString => true
  end.

(** A character of a key of a manifest: a name character that is not an
    upper-case letter. *)
Definition is_key_char (c : ascii) : bool :=
  Py.is_lower c || Py.is_digit c
  || Ascii.eqb c "_"%char || Ascii.eqb c "-"%char.

Section Lines.
Context `{Packaging}.

(** The text of the clause of a line: what follows the name, stripped. *)
Definition line_clause (line : string) : string :=
  match re_match (Py.strip line) with
  | Some (_, g2) => Py.strip g2
  | None => ""
  end.

(** A line that the parser accepts: it names no package, or its clause is
    valid. *)
Definition line_accepted (line : string) : Prop :=
  line_package line = None ∨ is_Some (line_constraints line).

(** The status of a row for what was selected. *)
Definition status_text (version_selected : option Version) : string :=
  match version_selected with
  | Some _ => RESOLVED
  | None => UNRESOLVED
  end.

(** The version, or the dash, in the column [Selected Version]. *)
Definition selected_text (version_selected : option Version) : string :=
  match version_selected with
  | Some ver => version_str ver
  | None => "-"
  end.

End Lines.

(** ** A reference implementation of the interface: final releases

    Versions of the form [N(.N)*] (no epoch, pre-, post- or development
    release, no local label) and the clauses built on them with the
    operators [~=], [==], [!=], [<=], [>=], [<] and [>]; anything else is
    refused by the parsers below. *)

Module Pep440.

(** The release segments as written: [1.0] is [[1; 0]]. *)
Record version := { release : list N }.

Fixpoint digits_value (acc : N) (s : string) : option N :=
  match s with
  | EmptyString => Some acc
  | String c s' =>
      if Py.is_digit c
      then digits_value (10 * acc + (N_of_ascii c - 48)) s'
      else None
  end.

(** A non-empty run of decimal digits. *)
Definition parse_segment (s : string) : option N :=
  match s with
  | EmptyString => None
  | _ => digits_value 0 s
  end.

(** [Version(s)]; [None] stands for [InvalidVersion]. *)
Definition version_parse (s : string) : option version :=
  segments ← mapM parse_segment (Py.split "."%char (Py.strip s));
  Some {| release := segments |}.

Definition segment_str (n : N) : string :=
  NilZero.string_of_uint (N.to_uint n).

Definition release_str (l : list N) : string :=
  Py.join "." (map segment_str l).

(** [str(v)] *)
Definition version_str (v : version) : string := release_str (release v).

(** The comparison key: the release without its trailing zeros. *)
Fixpoint strip_zeros (l : list N) : list N :=
  match l with
  | [] => []
  | x :: l' =>
      match strip_zeros l' with
      | [] => if (x =? 0)%N then [] else [x]
      | r => x :: r
      end
  end.

Definition key (v : version) : list N := strip_zeros (release v).

(** [a < b] on tuples of integers. *)
Fixpoint tuple_lt (a b : list N) : bool :=
  match a, b with
  | [], [] => false
  | [], _ :: _ => true
  | _ :: _, [] => false
  | x :: a', y :: b' =>
      if (x <? y)%N then true
      else if (y <? x)%N then false
      else tuple_lt a' b'
  end.

Definition version_lt (v w : version) : bool := tuple_lt (key v) (key w).

Inductive operator :=
  | Compatible | Equal | NotEqual | LessEqual | GreaterEqual | Less | Greater.

Global Instance operator_eq_dec : EqDecision operator.
Proof. solve_decision. Defined.

Definition operator_str (op : operator) : string :=
  match op with
  | Compatible => "~="
  | Equal => "=="
  | NotEqual => "!="
  | LessEqual => "<="
  | GreaterEqual => ">="
  | Less => "<"
  | Greater => ">"
  end.

(** One clause: the operator and the version as written. *)
Record specifier := { spec_operator : operator; spec_version : list N }.

(** The operator at the head of a clause, and what follows it. *)
Definition split_operator (s : string) : option (operator * string) :=
  match s with
  | String "~" (String "=" r) => Some (Compatible, r)
  | String "=" (String "=" r) => Some (Equal, r)
  | String "!" (String "=" r) => Some (NotEqual, r)
  | String "<" (String "=" r) => Some (LessEqual, r)
  | String ">" (String "=" r) => Some (GreaterEqual, r)
  | String "<" r => Some (Less, r)
  | String ">" r => Some (Greater, r)
  | _ => None
  end.

(** [Specifier(s)]: an operator, optional blanks, a version; [~=] wants
    two release segments at least. *)
Definition specifier_parse (s : string) : option specifier :=
  '(op, r) ← split_operator (Py.strip s);
  v ← version_parse r;
  if bool_decide (op = Compatible) && (length (release v) <? 2)%nat then None
  else Some {| spec_operator := op; spec_version := release v |}.

Definition specifier_str (a : specifier) : string :=
  operator_str (spec_operator a) ++ release_str (spec_version a).

(** Clauses are equal when their canonical forms are: same operator and
    same version, trailing zeros apart unless the operator is [~=]. *)
Definition canonical (a : specifier) : operator * list N :=
  (spec_operator a,
   if bool_decide (spec_operator a = Compatible) then spec_version a
   else strip_zeros (spec_version a)).

Definition specifier_eqb (a b : specifier) : bool :=
  bool_decide (canonical a = canonical b).

(** The release padded with zeros to [n] segments at least, cut to [n]. *)
Definition padded_prefix (n : nat) (l : list N) : list N :=
  take n (l ++ replicate (n - length l) 0%N).

(** [a.contains(v)] for one clause. *)
Definition clause_contains (a : specifier) (v : version) : bool :=
  let s := {| release := spec_version a |} in
  match spec_operator a with
  | Equal => bool_decide (key v = key s)
  | NotEqual => negb (bool_decide (key v = key s))
  | LessEqual => negb (version_lt s v)
  | GreaterEqual => negb (version_lt v s)
  | Less => version_lt v s
  | Greater => version_lt s v
  | Compatible =>
      let prefix := removelast (spec_version a) in
      negb (version_lt v s)
      && bool_decide (padded_prefix (length prefix) (release v) = prefix)
  end.

(** [item in s]: the item is parsed, then every clause must contain it.
    The program only asks for [str(v)] of a version [v], which parses. *)
Definition specifiers_contain (specs : list specifier) (item : string) : bool :=
  match version_parse item with
  | Some v => forallb (λ a, clause_contains a v) specs
  | None => false
  end.

Lemma tuple_lt_asym a b : tuple_lt a b = true → tuple_lt b a = false.
Proof.
  revert b; induction a as [|x a IH]; intros [|y b]; simpl; try done.
  destruct (N.ltb_spec x y), (N.ltb_spec y x); try done; try lia.
  apply IH.
Qed.

Lemma tuple_lt_cotrans a b c :
  tuple_lt a b = true → tuple_lt a c = true ∨ tuple_lt c b = true.
Proof.
  revert b c; induction a as [|x a IH]; intros [|y b] [|z c]; simpl;
    try done; auto.
  destruct (N.ltb_spec x y), (N.ltb_spec y x), (N.ltb_spec x z),
    (N.ltb_spec z x), (N.ltb_spec z y), (N.ltb_spec y z);
    try done; eauto; try lia.
Qed.

Lemma version_lt_asym v w : version_lt v w = true → version_lt w v = false.
Proof. apply tuple_lt_asym. Qed.

Lemma version_lt_cotrans v w u :
  version_lt v w = true → version_lt v u = true ∨ version_lt u w = true.
Proof. apply tuple_lt_cotrans. Qed.

Global Instance packaging : Packaging :=
  Build_Packaging version version_parse version_lt version_str
    specifier specifier_parse specifier_eqb specifier_str specifiers_contain
    version_lt_asym version_lt_cotrans.

End Pep440.

(** ** Catalogs and manifests for the scenarios *)

Module Scenario.

(** A catalog: the keys of the releases it knows for each package; the
    lookup of any other package fails. *)
Definition catalog (answers : list (string * list string)) : World :=
  {| pypi_releases := λ pkg,
       (list_to_map answers : gmap string (list string)) !! pkg;
     temp_file := "/tmp/resolved_requirements_0.txt" |}.

Definition flask_catalog : World :=
  catalog [("flask", ["1.0"; "2.0"; "1.1"])].

Definition requests_catalog : World :=
  catalog [("requests", ["2.4.0"; "2.6.0"; "2.9.0"; "3.0.0"])].

Definition clause (op : Pep440.operator) (v : list N) : Specifier :=
  {| Pep440.spec_operator := op; Pep440.spec_version := v |}.

(** The clauses of [flask==1.0] and [flask==2.0] together. *)
Definition flask_1_0_and_2_0 : SpecifierSet :=
  {| _specs := [clause Pep440.Equal [1; 0]; clause Pep440.Equal [2; 0]]%N |}.

Definition nl : string := String "010" "".

Definition flask_1_0 : gmap string SpecifierSet :=
  {[ "flask" := {| _specs := [clause Pep440.Equal [1; 0]%N] |} ]}.
Definition flask_2_0 : gmap string SpecifierSet :=
  {[ "flask" := {| _specs := [clause Pep440.Equal [2; 0]%N] |} ]}.
Definition requests_2_x : gmap string SpecifierSet :=
  {[ "requests" := {| _specs := [clause Pep440.GreaterEqual [2; 0]%N;
                                 clause Pep440.Less [3; 0]%N] |} ]}.
Definition requests_2_5 : gmap string SpecifierSet :=
  {[ "requests" := {| _specs := [clause Pep440.GreaterEqual [2; 5]%N] |} ]}.
Definition obscurepkg_1_0 : gmap string SpecifierSet :=
  {[ "obscurepkg" := {| _specs := [clause Pep440.GreaterEqual [1; 0]%N] |} ]}.

Definition twice_flask : string :=
  "flask==1.0" ++ nl ++ "requests>=2.5" ++ nl ++ "Flask ==2.0".

End Scenario.

(** ** More data for the scenarios *)

Module Scenario_more.

(** The catalog of [Scenario.flask_catalog], listed in another order. *)
Definition flask_catalog_reordered : World :=
  Scenario.catalog [("flask", ["1.1"; "1.0"; "2.0"])].

(** A manifest with a comment, a blank line and a path. *)
Definition commented : string :=
  "# pinned" ++ Scenario.nl ++ "flask==1.0" ++ Scenario.nl ++ "  "
    ++ Scenario.nl ++ "./local" ++ Scenario.nl ++ "Requests".

(** [commented] without its comment. *)
Definition uncommented : string :=
  "flask==1.0" ++ Scenario.nl ++ "  "
    ++ Scenario.nl ++ "./local" ++ Scenario.nl ++ "Requests".

(** The manifest that both parse to. *)
Definition flask_and_requests : gmap string SpecifierSet :=
  <["requests" := unconstrained]> Scenario.flask_1_0.

(** A catalog that knows more than [Scenario.flask_catalog]. *)
Definition larger_catalog : World :=
  Scenario.catalog [("flask", ["1.0"; "2.0"; "1.1"]);
                    ("requests", ["2.9.0"])].

(** A catalog with a key that is not a version, as the index holds some. *)
Definition pytz_catalog : World :=
  Scenario.catalog [("pytz", ["2024.1"; "2004d"])].

(** A manifest whose second line has an invalid clause. *)
Definition broken : string :=
  "flask==1.0" ++ Scenario.nl ++ "Pkg @@@bad" ++ Scenario.nl ++ "other~~1".

End Scenario_more.

(** ** The built-ins at work *)

Example splitlines_boundaries :
  Py.splitlines
    ("a" ++ String "010" (String "010" ("b" ++ String "013" (String "010" ""))))
    = ["a"; ""; "b"].
Proof. reflexivity. Qed.

Example strip_blanks : Py.strip (String "009" " flask == 1.0  ") = "flask == 1.0".
Proof. reflexivity. Qed.

Example split_commas : Py.split ","%char ">=2.0,<3.0," = [">=2.0"; "<3.0"; ""].
Proof. reflexivity. Qed.

Example sorted_stable :
  Py.sorted (λ a b : nat * string, a.1 <? b.1)%nat
      [(2, "a"); (1, "b"); (2, "c"); (1, "d")]
    = [(1, "b"); (1, "d"); (2, "a"); (2, "c")]
  ∧ Py.sorted_reverse (λ a b : nat * string, a.1 <? b.1)%nat
      [(2, "a"); (1, "b"); (2, "c"); (1, "d")]
    = [(2, "a"); (2, "c"); (1, "b"); (1, "d")].
Proof. split; reflexivity. Qed.

Example re_match_name :
  re_match "Flask-Login>=0.5" = Some ("Flask-Login", ">=0.5")
  ∧ re_match "-e ." = Some ("-e", " .")
  ∧ re_match "[extras]" = None.
Proof. repeat split; reflexivity. Qed.

(** ** Facts on [sorted] *)

Section sorted_facts.
Context {A : Type} (lt : A → A → bool).
Hypothesis lt_asym : ∀ a b, lt a b = true → lt b a = false.

Lemma insert_Permutation x l : Py.insert lt x l ≡ₚ x :: l.
Proof.
  induction l as [|y l IH]; simpl; [done|].
  destruct (lt y x); [|done].
  rewrite IH. apply Permutation_swap.
Qed.

Lemma sorted_Permutation l : Py.sorted lt l ≡ₚ l.
Proof.
  induction l as [|x l IH]; simpl; [done|].
  by rewrite insert_Permutation, IH.
Qed.

Lemma insert_HdRel a x l :
  may_precede lt a x → HdRel (may_precede lt) a l →
  HdRel (may_precede lt) a (Py.insert lt x l).
Proof.
  intros Hax Hal. destruct l as [|y l]; simpl; [by constructor|].
  destruct (lt y x); constructor; [by inv Hal|done].
Qed.

Lemma insert_Sorted x l :
  Sorted (may_precede lt) l → Sorted (may_precede lt) (Py.insert lt x l).
Proof using lt_asym.
  induction 1 as [|y l Hl IH Hy]; simpl; [by repeat constructor|].
  destruct (lt y x) eqn:Hyx.
  - constructor; [done|]. apply insert_HdRel; [|done].
    by apply lt_asym.
  - constructor; [by constructor|]. by constructor.
Qed.

Lemma sorted_Sorted l : Sorted (may_precede lt) (Py.sorted lt l).
Proof using lt_asym.
  induction l as [|x l IH]; simpl; [constructor|]. by apply insert_Sorted.
Qed.

(** Sorting changes nothing in a list that is in order. *)
Lemma sorted_fixed l : Sorted (may_precede lt) l → Py.sorted lt l = l.
Proof.
  induction 1 as [|x l Hl IH Hx]; simpl; [done|].
  rewrite IH. destruct Hx as [|y l Hxy]; simpl; [done|].
  unfold may_precede in Hxy. by rewrite Hxy.
Qed.

Hypothesis lt_cotrans : ∀ a b c, lt a b = true → lt a c = true ∨ lt c b = true.

Global Instance may_precede_trans : Transitive (may_precede lt).
Proof using lt_cotrans.
  intros a b c Hab Hbc. unfold may_precede in *.
  destruct (lt c a) eqn:Hca; [|done].
  destruct (lt_cotrans _ _ b Hca); congruence.
Qed.

Lemma sorted_StronglySorted l :
  StronglySorted (may_precede lt) (Py.sorted lt l).
Proof using lt_asym lt_cotrans.
  apply Sorted_StronglySorted; [apply may_precede_trans|apply sorted_Sorted].
Qed.
End sorted_facts.

Section find_facts.
Context {A : Type} (test : A → bool).

Lemma find_None_iff l : find test l = None ↔ ∀ x, x ∈ l → test x = false.
Proof.
  induction l as [|x l IH]; simpl.
  - split; [|done]. intros _ x Hx. by apply elem_of_nil in Hx.
  - destruct (test x) eqn:Hx.
    + split; [done|]. intros Hall. specialize (Hall x (list_elem_of_here _ _)).
      congruence.
    + rewrite IH. split.
      * intros Hall y [->|Hy]%elem_of_cons; auto.
      * intros Hall y Hy. apply Hall. by right.
Qed.

Lemma find_Some_elem l x : find test l = Some x → x ∈ l ∧ test x = true.
Proof.
  induction l as [|y l IH]; simpl; [done|].
  destruct (test y) eqn:Hy.
  - intros [= ->]. split; [left|done].
  - intros [? ?]%IH. split; [by right|done].
Qed.

(** In a list in order, the first element that passes the test may
    precede every element that passes it. *)
Lemma find_StronglySorted (R : relation A) `{!Reflexive R} l x :
  StronglySorted R l → find test l = Some x →
  ∀ y, y ∈ l → test y = true → R x y.
Proof.
  induction 1 as [|z l Hl IH Hz]; simpl; [done|].
  destruct (test z) eqn:Htz.
  - intros [= ->] y [->|Hy]%elem_of_cons _; [done|].
    rewrite Forall_forall in Hz. by apply Hz.
  - intros Hfind y [->|Hy]%elem_of_cons Hty; [congruence|]. by apply IH.
Qed.

Lemma find_filter l :
  find test l = head (filter (λ x, test x = true) l).
Proof.
  induction l as [|x l IH]; simpl; [done|].
  rewrite filter_cons. destruct (decide (test x = true)) as [Hx|Hx].
  - by rewrite Hx.
  - by apply not_true_is_false in Hx as ->.
Qed.
End find_facts.

Section maximum_facts.
Context {A : Type} (lt : A → A → bool).

Lemma maximum_from_sorted best l :
  Forall (λ y, lt best y = false) l → maximum_from lt best l = best.
Proof.
  induction 1 as [|y l Hy Hl IH]; simpl; [done|]. by rewrite Hy.
Qed.

(** The maximum of a list in descending order is its head. *)
Lemma maximum_sorted l :
  StronglySorted (λ a b, lt a b = false) l → maximum lt l = head l.
Proof.
  destruct 1 as [|x l Hl Hx]; simpl; [done|].
  f_equal. by apply maximum_from_sorted.
Qed.
End maximum_facts.

(** ** The selection of a version *)

Section selection_facts.
Context `{Packaging}.

Global Instance descending_refl : Reflexive descending.
Proof.
  intros v. unfold descending. destruct (version_lt v v) eqn:Hv; [|done].
  by rewrite (version_lt_asym _ _ Hv) in Hv.
Qed.

Lemma available_Permutation w pkg :
  available w pkg ≡ₚ default [] (listed w pkg).
Proof. apply sorted_Permutation. Qed.

Lemma available_descending w pkg :
  StronglySorted descending (available w pkg).
Proof.
  apply (sorted_StronglySorted (λ a b, version_lt b a)).
  - intros a b. apply version_lt_asym.
  - intros a b c Hba. destruct (version_lt_cotrans _ _ c Hba); auto.
Qed.

Lemma available_nil w pkg :
  available w pkg = [] ↔ default [] (listed w pkg) = [].
Proof.
  pose proof (available_Permutation w pkg) as Hperm.
  split; intros Hnil; rewrite Hnil in Hperm.
  - symmetry in Hperm. by apply Permutation_nil_r in Hperm.
  - by apply Permutation_nil_r in Hperm.
Qed.

(** [get_available_versions] returns the available versions when the
    index lists versions only, and raises [InvalidVersion] otherwise. *)
Lemma get_available_versions_listed w pkg :
  get_available_versions w pkg
  = match listed w pkg with
    | Some _ => Ok (available w pkg)
    | None => Raise InvalidVersion
    end.
Proof.
  unfold get_available_versions, available, listed.
  destruct (pypi_releases w pkg) as [keys|]; [|done].
  by destruct (mapM version_parse keys).
Qed.

Lemma get_available_versions_Ok w pkg :
  is_Some (listed w pkg) → get_available_versions w pkg = Ok (available w pkg).
Proof. intros [versions Hl]. by rewrite get_available_versions_listed, Hl. Qed.

(** The ascending scan looks at the versions the descending scan saw. *)
Lemma ascending_scan_None (test : Version → bool) l :
  find test l = None → find test (Py.sorted version_lt l) = None.
Proof.
  rewrite !find_None_iff. intros Hall x Hx. apply Hall.
  by rewrite <-(sorted_Permutation version_lt l).
Qed.

(** [select_version] never gets to return from its second scan, and
    raises nothing when it is given a specifier set and the index lists
    versions only. *)
Lemma select_version_first w spec_set pkg :
  is_Some (listed w pkg) →
  select_version w (Some spec_set) pkg = Ok (selected w spec_set pkg).
Proof.
  intros Hlisted. unfold select_version, selected.
  rewrite (get_available_versions_Ok w pkg Hlisted). simpl.
  destruct (available w pkg) as [|v l] eqn:Havail; [done|].
  cbn [Py.truthy_list negb].
  destruct (find _ (v :: l)) as [ver|] eqn:Hfind; [done|].
  by rewrite (ascending_scan_None _ _ Hfind).
Qed.

Lemma select_version_empty w spec_set pkg :
  is_Some (listed w pkg) → available w pkg = [] →
  select_version w spec_set pkg = Ok (None, "No versions available").
Proof.
  intros Hlisted Hnil. unfold select_version.
  rewrite (get_available_versions_Ok w pkg Hlisted). simpl. by rewrite Hnil.
Qed.

(** A key that is not a version: the exception of the lookup goes through
    the selection. *)
Lemma select_version_raise w spec_set pkg :
  listed w pkg = None → select_version w spec_set pkg = Raise InvalidVersion.
Proof.
  intros Hnone. unfold select_version.
  by rewrite get_available_versions_listed, Hnone.
Qed.

(** C5: the index lists the versions [versions] for the package.  With no
    version the selection answers "No versions available"; otherwise it
    returns the maximum of the listed versions that satisfy the constraint
    set when there is one, and answers "No compatible version found in
    available versions" when there is none. *)
Theorem select_version_maximum w spec_set pkg versions :
  listed w pkg = Some versions →
  let satisfies ver := SpecifierSet_contains spec_set (version_str ver) = true in
  (versions = [] →
     select_version w (Some spec_set) pkg = Ok (None, "No versions available"))
  ∧ (versions ≠ [] → (∃ ver, ver ∈ versions ∧ satisfies ver) →
     ∃ ver,
       select_version w (Some spec_set) pkg
         = Ok (Some ver, "Selected largest version: " ++ version_str ver)
       ∧ ver ∈ versions ∧ satisfies ver
       ∧ ∀ u, u ∈ versions → satisfies u → version_lt ver u = false)
  ∧ (versions ≠ [] → (∀ ver, ver ∈ versions → ¬ satisfies ver) →
     select_version w (Some spec_set) pkg
       = Ok (None, "No compatible version found in available versions")).
Proof.
  intros Hlisted satisfies. subst satisfies.
  assert (is_Some (listed w pkg)) as Hsome by (by eexists).
  pose proof (available_Permutation w pkg) as Hperm.
  pose proof (available_nil w pkg) as Hnil.
  rewrite Hlisted in Hperm, Hnil. simpl in Hperm, Hnil.
  split; [|split].
  - intros Hv. apply select_version_empty; [done|]. by apply Hnil.
  - intros Hne (u & Hu & Hsat).
    rewrite select_version_first by done. unfold selected.
    pose proof (available_descending w pkg) as Hsorted.
    destruct (available w pkg) as [|v l] eqn:Havail.
    { destruct Hne. by apply Hnil. }
    destruct (find _ (v :: l)) as [ver|] eqn:Hfind.
    + exists ver. split; [done|].
      destruct (find_Some_elem _ _ _ Hfind) as [Hin Htest].
      split; [by rewrite <-Hperm|]. split; [done|].
      intros u' Hu' Hsat'. rewrite <-Hperm in Hu'.
      by apply (find_StronglySorted _ descending _ _ Hsorted Hfind).
    + rewrite find_None_iff in Hfind. rewrite <-Hperm in Hu.
      specialize (Hfind u Hu). congruence.
  - intros Hne Hall.
    rewrite select_version_first by done. unfold selected.
    destruct (available w pkg) as [|v l] eqn:Havail.
    { destruct Hne. by apply Hnil. }
    destruct (find _ (v :: l)) as [ver|] eqn:Hfind; [|done].
    destruct (find_Some_elem _ _ _ Hfind) as [Hin Htest].
    rewrite Hperm in Hin. by destruct (Hall ver Hin).
Qed.

(** C6: [select_version] is the one-pass selection of the maximum
    available version satisfying the constraint set, and its ascending
    scan finds nothing whenever the descending scan found nothing. *)
Theorem select_version_one_pass_eq w spec_set pkg :
  select_version w (Some spec_set) pkg
    = select_version_one_pass w spec_set pkg
  ∧ ∀ available_versions,
      get_available_versions w pkg = Ok available_versions →
      let test ver := SpecifierSet_contains spec_set (version_str ver) in
      find test available_versions = None →
      find test (Py.sorted version_lt available_versions) = None.
Proof.
  split; [|intros ? _; apply ascending_scan_None].
  destruct (listed w pkg) as [versions|] eqn:Hlisted; cycle 1.
  { rewrite select_version_raise by done. unfold select_version_one_pass.
    by rewrite get_available_versions_listed, Hlisted. }
  assert (is_Some (listed w pkg)) as Hsome by (by eexists).
  rewrite select_version_first by done.
  unfold selected, select_version_one_pass.
  rewrite (get_available_versions_Ok w pkg Hsome). simpl. f_equal.
  pose proof (available_descending w pkg) as Hsorted.
  destruct (available w pkg) as [|v l] eqn:Havail; [done|].
  cbn [Py.truthy_list negb].
  rewrite find_filter, maximum_sorted; [done|].
  revert Hsorted. generalize (v :: l). clear.
  induction 1 as [|x l Hl IH Hx]; [constructor|].
  rewrite filter_cons. case_decide; [|done].
  constructor; [done|].
  rewrite Forall_forall in Hx |- *.
  intros y Hy. apply list_elem_of_filter in Hy. destruct Hy as [_ Hy]. by apply Hx.
Qed.
End selection_facts.

(** ** Specifier sets and their intersection *)

Section merge_facts.
Context `{Packaging}.

Lemma SpecifierSet_new_empty : SpecifierSet_new "" = Some unconstrained.
Proof. reflexivity. Qed.

Lemma SpecifierSet_bool_false a :
  SpecifierSet_bool a = false ↔ a = unconstrained.
Proof.
  destruct a as [[|x l]]; unfold SpecifierSet_bool, SpecifierSet_len; simpl.
  - done.
  - split; [done|]. intros [=].
Qed.

Lemma set_union_nil_l (l : list Specifier) : set_union [] l = l.
Proof.
  unfold set_union; simpl. induction l as [|x l IH]; [done|].
  rewrite filter_cons. rewrite decide_True by done. by rewrite IH.
Qed.

Lemma SpecifierSet_and_unconstrained_l a :
  SpecifierSet_and unconstrained a = a.
Proof.
  destruct a as [l]. unfold SpecifierSet_and; simpl. by rewrite set_union_nil_l.
Qed.

(** The sentinel [None] comes out only when both sets are unconstrained. *)
Lemma merge_specifiers_None a b :
  merge_specifiers a b = None ↔
  SpecifierSet_bool a = false ∧ SpecifierSet_bool b = false.
Proof.
  rewrite !SpecifierSet_bool_false. unfold merge_specifiers. split.
  - destruct (SpecifierSet_bool _) eqn:Hb; [done|]. intros _.
    apply SpecifierSet_bool_false in Hb.
    destruct a as [[|x l]]; [|done].
    rewrite SpecifierSet_and_unconstrained_l in Hb. by subst.
  - intros [-> ->]. done.
Qed.

Lemma merge_specifiers_Some a b :
  SpecifierSet_bool a || SpecifierSet_bool b = true →
  merge_specifiers a b = Some (SpecifierSet_and a b).
Proof.
  intros Hab. unfold merge_specifiers.
  destruct (SpecifierSet_bool (SpecifierSet_and a b)) eqn:Hm; [done|].
  assert (merge_specifiers a b = None) as [Ha Hb]%merge_specifiers_None
    by (unfold merge_specifiers; by rewrite Hm).
  rewrite Ha, Hb in Hab. done.
Qed.

(** What the unconstrained set gives on the left of any set: the set
    when it has a clause, and the sentinel otherwise. *)
Theorem merge_specifiers_unconstrained_l X :
  merge_specifiers unconstrained X
    = if SpecifierSet_bool X then Some X else None.
Proof.
  unfold merge_specifiers. rewrite SpecifierSet_and_unconstrained_l.
  by destruct (SpecifierSet_bool X).
Qed.
End merge_facts.

(** ** The parser *)

Section parse_facts.
Context `{Packaging}.

Lemma parse_line_skip dependencies line :
  line_package line = None → parse_line dependencies line = inr dependencies.
Proof.
  unfold line_package, parse_line.
  destruct (_ && _); [|done].
  by destruct (re_match _) as [[g1 g2]|].
Qed.

Lemma parse_line_insert dependencies line p :
  line_package line = Some p →
  match line_constraints line with
  | Some spec_set =>
      parse_line dependencies line = inr (<[p := spec_set]> dependencies)
  | None => ∃ msg, ∀ d, parse_line d line = inl msg
  end.
Proof.
  unfold line_package, line_constraints, parse_line.
  destruct (_ && _); [|done].
  destruct (re_match _) as [[g1 g2]|]; [|done]. simpl.
  intros [= <-].
  destruct (Py.truthy_str (Py.strip g2)); [|done].
  destruct (SpecifierSet_new _); [done|]. by eexists.
Qed.

Lemma parse_lines_app dependencies l1 l2 :
  parse_lines dependencies (l1 ++ l2) =
  match parse_lines dependencies l1 with
  | inl msg => inl msg
  | inr dependencies' => parse_lines dependencies' l2
  end.
Proof.
  revert dependencies. induction l1 as [|line l1 IH]; intros d; simpl; [done|].
  destruct (parse_line d line); [done|]. apply IH.
Qed.



Lemma parse_requirements_lines file_content dependencies :
  parse_requirements file_content = (Some dependencies, None) ↔
  parse_lines ∅ (Py.splitlines file_content) = inr dependencies.
Proof.
  unfold parse_requirements.
  destruct (parse_lines _ _); split; intros [=]; by subst.
Qed.

End parse_facts.

(** ** The order of strings and of pins *)

Section order_facts.

Lemma string_ltb_compare a b : String.ltb a b = true ↔ String.compare a b = Lt.
Proof. unfold String.ltb. by destruct (String.compare a b). Qed.

Lemma string_ltb_asym a b : String.ltb a b = true → String.ltb b a = false.
Proof.
  rewrite string_ltb_compare. unfold String.ltb.
  rewrite (String.compare_antisym a b). by destruct (String.compare b a).
Qed.

Lemma string_ltb_false a b : String.ltb a b = false ↔ String.le b a.
Proof.
  unfold String.le, String.ltb, String.leb.
  rewrite (String.compare_antisym a b).
  destruct (String.compare b a); simpl; split; done.
Qed.

Lemma string_ltb_trichotomy a b :
  String.ltb a b = false → String.ltb b a = false → a = b.
Proof.
  rewrite !string_ltb_false. intros Hba Hab. by apply (anti_symm String.le).
Qed.

Lemma string_ltb_cotrans a b c :
  String.ltb a b = true → String.ltb a c = true ∨ String.ltb c b = true.
Proof.
  intros Hab.
  destruct (String.ltb a c) eqn:Hac; [by left|].
  destruct (String.ltb c b) eqn:Hcb; [by right|].
  apply string_ltb_false in Hac, Hcb.
  assert (String.ltb a b = false) by (apply string_ltb_false; by etrans).
  congruence.
Qed.

Lemma string_ltb_irrefl a : String.ltb a a = false.
Proof.
  destruct (String.ltb a a) eqn:Ha; [|done].
  by rewrite (string_ltb_asym _ _ Ha) in Ha.
Qed.

Lemma pair_ltb_asym a b : Py.pair_ltb a b = true → Py.pair_ltb b a = false.
Proof.
  unfold Py.pair_ltb. repeat case_decide; try congruence;
    apply string_ltb_asym.
Qed.

Lemma pair_ltb_cotrans a b c :
  Py.pair_ltb a b = true → Py.pair_ltb a c = true ∨ Py.pair_ltb c b = true.
Proof.
  unfold Py.pair_ltb. destruct a as [a1 a2], b as [b1 b2], c as [c1 c2]; simpl.
  repeat case_decide; subst; try congruence; intros Hab.
  all: try (by apply string_ltb_cotrans).
  all: try (by left).
  all: try (by right).
  all: try (by rewrite string_ltb_irrefl in Hab).
  destruct (String.ltb b1 c1) eqn:Hbc; [by left|].
  destruct (String.ltb c1 b1) eqn:Hcb; [by right|].
  by pose proof (string_ltb_trichotomy _ _ Hbc Hcb).
Qed.

Lemma pair_ltb_trichotomy a b :
  Py.pair_ltb a b = false → Py.pair_ltb b a = false → a = b.
Proof.
  unfold Py.pair_ltb. destruct a as [a1 a2], b as [b1 b2]; simpl.
  repeat case_decide; subst; try congruence; intros Hab Hba.
  - f_equal. by apply string_ltb_trichotomy.
  - by destruct (string_ltb_trichotomy _ _ Hab Hba).
Qed.

(** A list in order is what sorting makes of any of its permutations,
    when two elements of which neither is smaller are the same. *)
Lemma sorted_unique {A} (lt : A → A → bool) (l l' : list A) :
  (∀ a b, lt a b = true → lt b a = false) →
  (∀ a b c, lt a b = true → lt a c = true ∨ lt c b = true) →
  (∀ a b, lt a b = false → lt b a = false → a = b) →
  l ≡ₚ l' → Sorted (may_precede lt) l' → Py.sorted lt l = l'.
Proof.
  intros Hasym Hcotrans Htri Hperm Hl'.
  apply (StronglySorted_unique_strong (may_precede lt)).
  - intros a b _ _ Hab Hba. by apply Htri.
  - by apply sorted_StronglySorted.
  - apply Sorted_StronglySorted; [by apply may_precede_trans|done].
  - by rewrite sorted_Permutation.
Qed.

(** Sorted names without repetition are in strictly ascending order. *)
Lemma sorted_names_ascending (names : list string) :
  NoDup names →
  StronglySorted (λ a b, String.ltb a b = true) (Py.sorted String.ltb names).
Proof.
  intros Hnodup.
  assert (NoDup (Py.sorted String.ltb names)) as Hnodup'
    by (by rewrite sorted_Permutation).
  pose proof (sorted_StronglySorted String.ltb string_ltb_asym
                string_ltb_cotrans names) as Hsorted.
  induction Hsorted as [|x l Hl IH Hx]; [constructor|].
  apply NoDup_cons in Hnodup' as [Hxl Hnodup'].
  constructor; [by apply IH|].
  rewrite Forall_forall in Hx |- *. intros y Hy.
  destruct (String.ltb x y) eqn:Hxy; [done|].
  rewrite (string_ltb_trichotomy x y Hxy (Hx y Hy)) in Hxl. done.
Qed.
End order_facts.

(** ** The analysis of two manifests *)

Section analyze_facts.
Context `{Packaging}.

Implicit Types (w : World) (deps : gmap string SpecifierSet).
Implicit Types (st : loop_state) (pkg : string) (pkgs : list string).

Lemma record_selection_row w deps1 deps2 st pkg :
  record_selection st pkg (interval deps1 deps2 pkg)
    (selected w (effective deps1 deps2 pkg) pkg).1
    (selected w (effective deps1 deps2 pkg) pkg).2
  = after_row st (row_of w deps1 deps2 pkg).
Proof.
  unfold record_selection, after_row, row_of, add_pin, is_resolved.
  destruct (selected _ _ _) as [[ver|] reason]; simpl.
  - by rewrite andb_true_r.
  - by rewrite andb_false_r.
Qed.

(** A turn of the loop for a package for which the index lists versions
    only raises nothing and takes neither the branch of the conflict nor
    the one where the merged set is [None]. *)
Lemma analyze_package_row w deps1 deps2 st pkg :
  is_Some (listed w pkg) →
  analyze_package w deps1 deps2 st pkg
    = Ok (after_row st (row_of w deps1 deps2 pkg)).
Proof.
  intros Hlisted. rewrite <-record_selection_row.
  unfold analyze_package, interval, effective.
  destruct (negb (SpecifierSet_bool (default unconstrained (deps1 !! pkg)))
            && negb (SpecifierSet_bool (default unconstrained (deps2 !! pkg))))
    eqn:Hboth.
  - apply andb_true_iff in Hboth as [H1 H2].
    apply negb_true_iff, SpecifierSet_bool_false in H1, H2.
    rewrite H1, H2, SpecifierSet_and_unconstrained_l.
    rewrite select_version_first by done.
    simpl. by destruct (selected _ _ _).
  - rewrite merge_specifiers_Some; cycle 1.
    { apply andb_false_iff in Hboth as [Hb|Hb]; apply negb_false_iff in Hb;
        rewrite Hb; [done|apply orb_true_r]. }
    rewrite bool_decide_eq_false_2 by done.
    rewrite select_version_first by done. simpl. by destruct (selected _ _ _).
Qed.

(** A turn of the loop for a package whose answer holds a key that is not
    a version lets [InvalidVersion] through. *)
Lemma analyze_package_raise w deps1 deps2 st pkg :
  listed w pkg = None →
  analyze_package w deps1 deps2 st pkg = Raise InvalidVersion.
Proof.
  intros Hnone. unfold analyze_package.
  destruct (negb (SpecifierSet_bool (default unconstrained (deps1 !! pkg)))
            && negb (SpecifierSet_bool (default unconstrained (deps2 !! pkg))))
    eqn:Hboth.
  - by rewrite select_version_raise.
  - rewrite merge_specifiers_Some; cycle 1.
    { apply andb_false_iff in Hboth as [Hb|Hb]; apply negb_false_iff in Hb;
        rewrite Hb; [done|apply orb_true_r]. }
    rewrite bool_decide_eq_false_2 by done.
    by rewrite select_version_raise.
Qed.

Lemma analyze_loop_rows w deps1 deps2 st pkgs :
  Forall (λ pkg, is_Some (listed w pkg)) pkgs →
  analyze_loop w deps1 deps2 st pkgs
    = Ok (foldl after_row st (row_of w deps1 deps2 <$> pkgs)).
Proof.
  intros Hlisted. revert st.
  induction Hlisted as [|pkg pkgs Hpkg Hpkgs IH]; intros st; simpl; [done|].
  rewrite analyze_package_row by done. simpl. apply IH.
Qed.

Lemma analyze_loop_raise w deps1 deps2 st pkgs :
  Exists (λ pkg, listed w pkg = None) pkgs →
  analyze_loop w deps1 deps2 st pkgs = Raise InvalidVersion.
Proof.
  intros Hex. revert st.
  induction Hex as [pkg pkgs Hpkg|pkg pkgs Hex IH]; intros st; simpl.
  - by rewrite analyze_package_raise.
  - destruct (listed w pkg) as [versions|] eqn:Hlisted.
    + rewrite analyze_package_row by (by eexists). simpl. apply IH.
    + by rewrite analyze_package_raise.
Qed.

Lemma results_foldl st rows :
  results (foldl after_row st rows) = (results st ++ rows)%list.
Proof.
  revert st. induction rows as [|r rows IH]; intros st; simpl.
  - by rewrite app_nil_r.
  - rewrite IH. simpl. by rewrite <-app_assoc.
Qed.

Lemma all_resolved_foldl st rows :
  all_resolved (foldl after_row st rows)
    = all_resolved st && forallb is_resolved rows.
Proof.
  revert st. induction rows as [|r rows IH]; intros st; simpl.
  - by rewrite andb_true_r.
  - rewrite IH. simpl. by rewrite andb_assoc.
Qed.

Lemma resolved_requirements_foldl st rows :
  resolved_requirements (foldl after_row st rows)
    = foldl add_pin (resolved_requirements st) rows.
Proof.
  revert st. induction rows as [|r rows IH]; intros st; simpl; [done|].
  by rewrite IH.
Qed.

Lemma package_row_of w deps1 deps2 pkg :
  Package (row_of w deps1 deps2 pkg) = pkg.
Proof. unfold row_of. by destruct (selected _ _ _) as [[ver|] reason]. Qed.

Lemma packages_row_of w deps1 deps2 pkgs :
  Package <$> (row_of w deps1 deps2 <$> pkgs) = pkgs.
Proof.
  induction pkgs as [|pkg pkgs IH]; [done|].
  rewrite !fmap_cons. by rewrite package_row_of, IH.
Qed.

Lemma status_row_of w deps1 deps2 pkg :
  Status (row_of w deps1 deps2 pkg) = RESOLVED
  ∨ Status (row_of w deps1 deps2 pkg) = UNRESOLVED.
Proof. unfold row_of. destruct (selected _ _ _) as [[ver|] reason]; auto. Qed.

(** The pins of rows that are all resolved, for packages without
    repetition. *)
Lemma add_pins_to_list rows :
  NoDup (Package <$> rows) → forallb is_resolved rows = true →
  map_to_list (foldl add_pin ∅ rows) ≡ₚ pin <$> rows.
Proof.
  induction rows as [|r rows IH] using rev_ind; intros Hnodup Hall.
  { simpl. by rewrite map_to_list_empty. }
  rewrite fmap_app in Hnodup. apply NoDup_app in Hnodup as (Hnodup & Hr & _).
  rewrite forallb_app in Hall. apply andb_true_iff in Hall as [Hall Hres].
  simpl in Hres. rewrite andb_true_r in Hres.
  rewrite foldl_app, fmap_app. simpl. unfold add_pin at 1. rewrite Hres.
  rewrite map_to_list_insert.
  - rewrite IH by done. apply (Permutation_cons_append _ (pin r)).
  - apply not_elem_of_dom. intros Hin.
    apply elem_of_dom in Hin as [v Hv].
    apply elem_of_map_to_list in Hv. rewrite IH in Hv by done.
    apply (Hr (Package r)); [|simpl; left].
    apply list_elem_of_fmap in Hv as (r' & [= Hpkg _] & Hr').
    apply list_elem_of_fmap. by exists r'.
Qed.

(** Rows in strictly ascending order of package give pins in order. *)
Lemma pins_sorted rows :
  StronglySorted (λ a b, String.ltb a b = true) (Package <$> rows) →
  Sorted (may_precede Py.pair_ltb) (pin <$> rows).
Proof.
  intros Hsorted. apply StronglySorted_Sorted.
  induction rows as [|r rows IH]; [constructor|].
  simpl in Hsorted |- *.
  apply StronglySorted_cons in Hsorted as [Hr Hrows].
  constructor; [by apply IH|].
  rewrite Forall_forall in Hr. rewrite Forall_forall.
  intros p (r' & -> & Hr')%list_elem_of_fmap.
  assert (String.ltb (Package r) (Package r') = true) as Hlt.
  { apply Hr. apply list_elem_of_fmap. by exists r'. }
  unfold may_precede, Py.pair_ltb, pin; simpl.
  case_decide as Heq.
  - rewrite Heq, string_ltb_irrefl in Hlt. done.
  - by apply string_ltb_asym.
Qed.
End analyze_facts.

(** ** The report *)

Section report_facts.
Context `{Packaging}.

Lemma packages_Permutation deps1 deps2 :
  packages deps1 deps2 ≡ₚ elements (dom deps1 ∪ dom deps2).
Proof. apply sorted_Permutation. Qed.

Lemma packages_ascending deps1 deps2 :
  StronglySorted (λ a b, String.ltb a b = true) (packages deps1 deps2).
Proof. apply sorted_names_ascending, NoDup_elements. Qed.

Lemma packages_NoDup deps1 deps2 : NoDup (packages deps1 deps2).
Proof. rewrite packages_Permutation. apply NoDup_elements. Qed.

Lemma sorted_pins w deps1 deps2 :
  let rows := row_of w deps1 deps2 <$> packages deps1 deps2 in
  forallb is_resolved rows = true →
  Py.sorted Py.pair_ltb (map_to_list (foldl add_pin ∅ rows)) = pin <$> rows.
Proof.
  intros rows Hall.
  apply sorted_unique;
    auto using pair_ltb_asym, pair_ltb_cotrans, pair_ltb_trichotomy.
  - apply add_pins_to_list; [|done]. subst rows.
    rewrite packages_row_of. apply packages_NoDup.
  - apply pins_sorted. subst rows.
    rewrite packages_row_of. apply packages_ascending.
Qed.

Lemma truthy_list_length {A B} (l : list A) (k : list B) :
  length l = length k → Py.truthy_list l = Py.truthy_list k.
Proof. by destruct l, k. Qed.

Lemma packages_listed w deps1 deps2 :
  lists_versions w deps1 deps2 →
  Forall (λ pkg, is_Some (listed w pkg)) (packages deps1 deps2).
Proof.
  intros Hlisted. apply Forall_forall. intros pkg Hpkg. apply Hlisted.
  rewrite packages_Permutation in Hpkg. by apply elem_of_elements.
Qed.

Lemma analyze_requirements_report w file1 file2 deps1 deps2 :
  parse_requirements file1 = (Some deps1, None) →
  parse_requirements file2 = (Some deps2, None) →
  lists_versions w deps1 deps2 →
  analyze_requirements w file1 file2 = Ok (report w deps1 deps2).
Proof.
  intros Hparse1 Hparse2 Hlisted. unfold analyze_requirements, report.
  rewrite Hparse1, Hparse2. simpl.
  fold (packages deps1 deps2).
  rewrite analyze_loop_rows by (by apply packages_listed). simpl.
  set (rows := row_of w deps1 deps2 <$> packages deps1 deps2).
  rewrite all_resolved_foldl, resolved_requirements_foldl, results_foldl.
  simpl.
  destruct (forallb is_resolved rows) eqn:Hall; [|done].
  pose proof (sorted_pins w deps1 deps2) as Hpins.
  cbv zeta in Hpins. fold rows in Hpins. rewrite (Hpins Hall).
  assert (Py.truthy_list (map_to_list (foldl add_pin ∅ rows))
          = Py.truthy_list rows) as ->.
  { apply truthy_list_length.
    rewrite add_pins_to_list, length_fmap; [done| |done].
    subst rows. rewrite packages_row_of. apply packages_NoDup. }
  destruct (Py.truthy_list rows); [|done]. simpl.
  unfold merged_manifest. do 4 f_equal.
  rewrite <-list_fmap_compose. done.
Qed.

Lemma is_resolved_Forall (rows : list Row) :
  forallb is_resolved rows = true ↔ Forall (λ r, Status r = RESOLVED) rows.
Proof.
  rewrite forallb_forall, Forall_forall. unfold is_resolved.
  split; intros Hall r Hr.
  - apply list_elem_of_In in Hr. eapply bool_decide_eq_true_1; by apply Hall.
  - apply list_elem_of_In in Hr. apply bool_decide_eq_true_2; by apply Hall.
Qed.

(** A key that is not a version in the answer for a package of the
    manifests: the analysis lets [InvalidVersion] through. *)
Lemma analyze_requirements_raise w file1 file2 deps1 deps2 pkg :
  parse_requirements file1 = (Some deps1, None) →
  parse_requirements file2 = (Some deps2, None) →
  pkg ∈ dom deps1 ∪ dom deps2 →
  listed w pkg = None →
  analyze_requirements w file1 file2 = Raise InvalidVersion.
Proof.
  intros Hparse1 Hparse2 Hpkg Hnone. unfold analyze_requirements.
  rewrite Hparse1, Hparse2. simpl. fold (packages deps1 deps2).
  rewrite analyze_loop_raise; [done|].
  apply Exists_exists. exists pkg. split; [|done].
  rewrite packages_Permutation. by apply elem_of_elements.
Qed.

Lemma not_lists_versions w deps1 deps2 :
  ¬ lists_versions w deps1 deps2 →
  ∃ pkg, pkg ∈ dom deps1 ∪ dom deps2 ∧ listed w pkg = None.
Proof.
  intros Hnot.
  destruct (decide (Forall (λ pkg, is_Some (listed w pkg))
                      (elements (dom deps1 ∪ dom deps2)))) as [Hall|Hex].
  - destruct Hnot. intros pkg Hpkg.
    rewrite Forall_forall in Hall. by apply Hall, elem_of_elements.
  - apply not_Forall_Exists in Hex; [|apply _].
    apply Exists_exists in Hex as (pkg & Hpkg & Hnone).
    exists pkg. split; [by apply elem_of_elements|].
    simpl in Hnone. by destruct (listed w pkg); [destruct Hnone; eexists|].
Qed.

(** C4: for texts that parse, the analysis returns a report none of whose
    rows has the status of a conflict, when the index lists versions only
    for the packages of the manifests, and no report at all otherwise;
    [merge_specifiers] returns [None] only for two unconstrained sets,
    which the branch before takes. *)
Theorem analyze_requirements_no_conflict w file1 file2 deps1 deps2 :
  parse_requirements file1 = (Some deps1, None) →
  parse_requirements file2 = (Some deps2, None) →
  (lists_versions w deps1 deps2 →
   ∃ rows resolved_content download_file all_resolved,
     analyze_requirements w file1 file2
       = Ok (VFrame rows, resolved_content, download_file, all_resolved)
     ∧ Forall (λ r, Status r ≠ CONFLICT) rows)
  ∧ (¬ lists_versions w deps1 deps2 →
     analyze_requirements w file1 file2 = Raise InvalidVersion)
  ∧ (∀ spec1 spec2,
       merge_specifiers spec1 spec2 = None ↔
       SpecifierSet_bool spec1 = false ∧ SpecifierSet_bool spec2 = false).
Proof.
  intros Hparse1 Hparse2. split; [|split; [|apply merge_specifiers_None]].
  - intros Hlisted.
    rewrite (analyze_requirements_report _ _ _ _ _ Hparse1 Hparse2 Hlisted).
    unfold report.
    assert (Forall (λ r, Status r ≠ CONFLICT)
              (row_of w deps1 deps2 <$> packages deps1 deps2)) as Hrows.
    { apply Forall_fmap, Forall_forall. intros pkg _. simpl.
      by destruct (status_row_of w deps1 deps2 pkg) as [-> | ->]. }
    destruct (_ && _); by repeat eexists.
  - intros (pkg & Hpkg & Hnone)%not_lists_versions.
    by apply (analyze_requirements_raise _ _ _ deps1 deps2 pkg).
Qed.

(** C7: for texts that parse and an index that lists versions for their
    packages, [all_resolved] holds exactly when every
    row is resolved; there is one row per package, in ascending order
    of the names; the merged manifest is produced exactly when
    [all_resolved] holds and there is a row, and it then has one line
    [name==version] per row, in the order of the rows. *)
Theorem analyze_requirements_merged w file1 file2 deps1 deps2 :
  parse_requirements file1 = (Some deps1, None) →
  parse_requirements file2 = (Some deps2, None) →
  lists_versions w deps1 deps2 →
  ∃ rows resolved_content download_file all_resolved,
    analyze_requirements w file1 file2
      = Ok (VFrame rows, resolved_content, download_file, all_resolved)
    ∧ (all_resolved = true ↔ Forall (λ r, Status r = RESOLVED) rows)
    ∧ Package <$> rows ≡ₚ elements (dom deps1 ∪ dom deps2)
    ∧ StronglySorted (λ a b, String.ltb a b = true) (Package <$> rows)
    ∧ (resolved_content ≠ VNone ↔ all_resolved = true ∧ rows ≠ [])
    ∧ (all_resolved = true → rows ≠ [] →
       resolved_content = VStr (merged_manifest rows)).
Proof.
  intros Hparse1 Hparse2 Hlisted.
  rewrite (analyze_requirements_report _ _ _ _ _ Hparse1 Hparse2 Hlisted).
  unfold report.
  set (rows := row_of w deps1 deps2 <$> packages deps1 deps2).
  assert (Package <$> rows = packages deps1 deps2) as Hpkgs
    by apply packages_row_of.
  pose proof (is_resolved_Forall rows) as Hall.
  destruct (forallb is_resolved rows) eqn:Hres; simpl.
  - destruct rows as [|r rows'] eqn:Hrows; simpl.
    + eexists _, _, _, _. split; [done|].
      split; [done|]. rewrite Hpkgs.
      split; [apply packages_Permutation|].
      split; [apply packages_ascending|]. split; [|done].
      split; [done|]. by intros [_ ?].
    + eexists _, _, _, _. split; [done|].
      split; [done|]. rewrite Hpkgs.
      split; [apply packages_Permutation|].
      split; [apply packages_ascending|]. split; [|done].
      split; done.
  - eexists _, _, _, _. split; [done|].
    split; [by rewrite <-Hall|]. rewrite Hpkgs.
    split; [apply packages_Permutation|].
    split; [apply packages_ascending|]. split; [|done].
    split; [done|]. by intros [? _].
Qed.

Lemma row_of_same_answer w w' deps1 deps2 pkg :
  pypi_releases w' pkg = pypi_releases w pkg →
  row_of w' deps1 deps2 pkg = row_of w deps1 deps2 pkg.
Proof.
  intros Hsame. unfold row_of, selected, available, listed.
  by rewrite Hsame.
Qed.

Lemma other_rows_same w w' deps1 deps2 pkg (pkgs : list string) :
  (∀ q, q ≠ pkg → pypi_releases w' q = pypi_releases w q) →
  filter (λ r, Package r ≠ pkg) (row_of w' deps1 deps2 <$> pkgs)
  = filter (λ r, Package r ≠ pkg) (row_of w deps1 deps2 <$> pkgs).
Proof.
  intros Hsame. induction pkgs as [|q pkgs IH]; [done|].
  rewrite !fmap_cons, !filter_cons. simpl.
  rewrite (package_row_of w), (package_row_of w'), IH.
  case_decide; [|done]. by rewrite (row_of_same_answer w w') by auto.
Qed.

(** X14: the index lists versions only for the packages of two texts
    that parse, and none for one of them (or its lookup fails).  The row
    of that package is unresolved with the reason "No versions available",
    [all_resolved] is false, and the rows of the other packages are what
    they are whatever versions the index lists for this one. *)
Theorem analyze_requirements_no_versions w file1 file2 deps1 deps2 pkg :
  parse_requirements file1 = (Some deps1, None) →
  parse_requirements file2 = (Some deps2, None) →
  lists_versions w deps1 deps2 →
  pkg ∈ dom deps1 ∪ dom deps2 →
  listed w pkg = Some [] →
  ∃ rows resolved_content download_file,
    analyze_requirements w file1 file2
      = Ok (VFrame rows, resolved_content, download_file, false)
    ∧ (∃ r, r ∈ rows ∧ Package r = pkg ∧ Status r = UNRESOLVED
            ∧ Reason r = "No versions available")
    ∧ ∀ w', (∀ q, q ≠ pkg → pypi_releases w' q = pypi_releases w q) →
        is_Some (listed w' pkg) →
        ∃ rows' resolved_content' download_file' all_resolved',
          analyze_requirements w' file1 file2
            = Ok (VFrame rows', resolved_content', download_file',
                  all_resolved')
          ∧ filter (λ r, Package r ≠ pkg) rows'
            = filter (λ r, Package r ≠ pkg) rows.
Proof.
  intros Hparse1 Hparse2 Hlisted Hpkg Hnone.
  rewrite (analyze_requirements_report _ _ _ _ _ Hparse1 Hparse2 Hlisted).
  unfold report.
  set (rows := row_of w deps1 deps2 <$> packages deps1 deps2).
  assert (row_of w deps1 deps2 pkg =
          {| Package := pkg; Status := UNRESOLVED;
             Compatible_Interval := interval deps1 deps2 pkg;
             Selected_Version := "-";
             Reason := "No versions available" |}) as Hrow.
  { unfold row_of, selected.
    assert (available w pkg = []) as ->; [|done].
    apply available_nil. by rewrite Hnone. }
  assert (row_of w deps1 deps2 pkg ∈ rows) as Hin.
  { apply list_elem_of_fmap. exists pkg. split; [done|].
    rewrite packages_Permutation. by apply elem_of_elements. }
  assert (forallb is_resolved rows = false) as Hres.
  { destruct (forallb is_resolved rows) eqn:Hall; [|done].
    rewrite is_resolved_Forall, Forall_forall in Hall.
    specialize (Hall _ Hin). by rewrite Hrow in Hall. }
  rewrite Hres. simpl. eexists _, _, _. split; [done|]. split.
  - exists (row_of w deps1 deps2 pkg). by rewrite Hrow at 2 3 4.
  - intros w' Hsame Hlisted'.
    assert (lists_versions w' deps1 deps2) as Hlists'.
    { intros q Hq. destruct (decide (q = pkg)) as [->|Hne]; [done|].
      specialize (Hlisted q Hq). unfold listed in *.
      by rewrite (Hsame q Hne). }
    rewrite (analyze_requirements_report w' _ _ _ _ Hparse1 Hparse2 Hlists').
    unfold report.
    pose proof (other_rows_same w w' deps1 deps2 pkg
                  (packages deps1 deps2) Hsame) as Hfilter.
    destruct (_ && _); by eexists _, _, _, _.
Qed.
End report_facts.

(** ** The comparison *)

Section compare_facts.
Context `{Packaging}.

Lemma parse_requirements_empty : parse_requirements "" = (Some ∅, None).
Proof. reflexivity. Qed.

(** C10: when one of the two contents is empty or [None], the comparison
    returns no report, no merged content, [all_resolved = false] and the
    prompt for the contents, though the empty text parses to the empty
    manifest. *)
Theorem compare_requirements_prompt w file1_content file2_content :
  truthy_content file1_content = false
  ∨ truthy_content file2_content = false →
  compare_requirements w file1_content file2_content
    = Ok (VNone, VNone, VNone, false,
          VStr "Please provide content for both requirements.txt files.")
  ∧ parse_requirements "" = (Some ∅, None).
Proof.
  intros Hfalsy. split; [|apply parse_requirements_empty].
  unfold compare_requirements. by destruct Hfalsy as [-> | ->]; rewrite ?orb_true_r.
Qed.

(** A text that does not parse: the message travels in the third place
    of the tuple of [analyze_requirements], where [compare_requirements]
    does not look for it. *)
Lemma compare_requirements_syntax_error w file1 file2 deps msg :
  Py.truthy_str file1 = true → Py.truthy_str file2 = true →
  parse_requirements file1 = (None, Some msg) →
  parse_requirements file2 = (deps, None) →
  Py.truthy_str msg = true →
  compare_requirements w (Some file1) (Some file2)
    = Ok (VNone, VNone, VStr msg, false, VNone).
Proof.
  intros Hfile1 Hfile2 Hparse1 Hparse2 Hmsg.
  unfold compare_requirements, analyze_requirements; simpl.
  rewrite Hfile1, Hfile2, Hparse1, Hparse2; simpl.
  unfold error_or; simpl. by rewrite Hmsg.
Qed.
End compare_facts.

(** ** Scenarios on final releases *)

Section scenario_facts.
Import Scenario.

(** No version is both [1.0] and [2.0]. *)
Lemma no_version_1_0_and_2_0 item :
  SpecifierSet_contains flask_1_0_and_2_0 item = false.
Proof.
  unfold SpecifierSet_contains, specifiers_contain; simpl.
  unfold Pep440.specifiers_contain.
  destruct (Pep440.version_parse item) as [v|]; [|done].
  simpl. unfold Pep440.clause_contains; simpl.
  destruct (decide (Pep440.key v = [1%N])) as [Hv|Hv].
  - rewrite bool_decide_eq_true_2 by done.
    rewrite bool_decide_eq_false_2; [done|].
    by rewrite Hv.
  - by rewrite bool_decide_eq_false_2.
Qed.

Lemma lists_versions_singletons (w : World) pkg spec_set1 spec_set2 :
  is_Some (listed w pkg) →
  lists_versions w {[ pkg := spec_set1 ]} {[ pkg := spec_set2 ]}.
Proof.
  intros Hlisted q.
  rewrite !dom_singleton_L, elem_of_union, !elem_of_singleton.
  by intros [->| ->].
Qed.

(** C1: for the manifests [flask==1.0] and [flask==2.0] and any catalog,
    the analysis withholds the merged manifest and returns
    [all_resolved = false], and the row of [flask] is unresolved: the
    status of a conflict is not reported.  (For a catalog whose answer
    holds a key that is not a version there is no report at all.) *)
Theorem scenario_B_unresolved (w : World) :
  (listed w "flask" = None
   ∧ analyze_requirements w "flask==1.0" "flask==2.0" = Raise InvalidVersion)
  ∨ ∃ reason,
      analyze_requirements w "flask==1.0" "flask==2.0"
        = Ok (VFrame [{| Package := "flask"; Status := UNRESOLVED;
                         Compatible_Interval := "==1.0,==2.0";
                         Selected_Version := "-"; Reason := reason |}],
              VNone, VNone, false)
      ∧ (reason = "No versions available"
         ∨ reason = "No compatible version found in available versions").
Proof.
  destruct (listed w "flask") as [versions|] eqn:Hlisted; [right|left]; cycle 1.
  { split; [done|].
    apply (analyze_requirements_raise w _ _ flask_1_0 flask_2_0 "flask");
      [reflexivity|reflexivity| |done].
    apply elem_of_union. left. unfold flask_1_0.
    rewrite dom_singleton_L. by apply elem_of_singleton. }
  rewrite (analyze_requirements_report w _ _ flask_1_0 flask_2_0);
    [|reflexivity|reflexivity
     |apply lists_versions_singletons; by rewrite Hlisted].
  unfold report.
  assert (packages flask_1_0 flask_2_0 = ["flask"]) as -> by reflexivity.
  assert (interval flask_1_0 flask_2_0 "flask" = "==1.0,==2.0") as Hinterval
    by reflexivity.
  assert (effective flask_1_0 flask_2_0 "flask" = flask_1_0_and_2_0)
    as Heffective by reflexivity.
  cbn [fmap list_fmap]. unfold row_of. rewrite Hinterval, Heffective.
  unfold selected.
  destruct (available w "flask") as [|v l].
  { eexists. split; [reflexivity|by left]. }
  assert (find (λ ver, SpecifierSet_contains flask_1_0_and_2_0
                         (version_str ver)) (v :: l) = None) as ->.
  { apply find_None_iff. intros x _. apply no_version_1_0_and_2_0. }
  eexists. split; [reflexivity|by right].
Qed.

Example scenario_B_flask_catalog :
  analyze_requirements flask_catalog "flask==1.0" "flask==2.0"
    = Ok (VFrame [{| Package := "flask"; Status := UNRESOLVED;
                     Compatible_Interval := "==1.0,==2.0";
                     Selected_Version := "-";
                     Reason :=
                       "No compatible version found in available versions" |}],
          VNone, VNone, false).
Proof. vm_compute. reflexivity. Qed.

(** C2: a line with an invalid clause.  The comparison returns no table
    and no merged output, but its place for the error holds [None]: the
    message sits in the place of the file to download. *)
Theorem compare_requirements_invalid_clause (w : World) :
  compare_requirements w (Some "pkg@@@bad") (Some "flask")
    = Ok (VNone, VNone, VStr "Invalid specifier for pkg: @@@bad", false, VNone).
Proof. reflexivity. Qed.

(** C3: the intersection of the unconstrained set with the unconstrained
    set is the sentinel [None], not the set itself. *)
Lemma merge_specifiers_unconstrained_sentinel :
  SpecifierSet_new "" = Some unconstrained
  ∧ merge_specifiers unconstrained unconstrained = None.
Proof. split; reflexivity. Qed.

Example scenario_A :
  analyze_requirements requests_catalog "requests>=2.0,<3.0" "requests>=2.5"
    = Ok (VFrame [{| Package := "requests"; Status := RESOLVED;
                     Compatible_Interval := "<3.0,>=2.0,>=2.5";
                     Selected_Version := "2.9.0";
                     Reason := "Selected largest version: 2.9.0" |}],
          VStr "requests==2.9.0", VStr "/tmp/resolved_requirements_0.txt", true).
Proof. vm_compute. reflexivity. Qed.

(** *** The theorems at work *)

(** The catalogs of the scenarios list versions only. *)
Lemma lists_versions_flask :
  lists_versions flask_catalog flask_1_0 flask_2_0.
Proof. apply lists_versions_singletons. by eexists. Qed.

Lemma lists_versions_requests :
  lists_versions requests_catalog requests_2_x requests_2_5.
Proof. apply lists_versions_singletons. by eexists. Qed.

Lemma lists_versions_two (w : World) pkg1 pkg2 spec_set1 spec_set2 :
  is_Some (listed w pkg1) → is_Some (listed w pkg2) →
  lists_versions w {[ pkg1 := spec_set1 ]} {[ pkg2 := spec_set2 ]}.
Proof.
  intros Hlisted1 Hlisted2 q.
  rewrite !dom_singleton_L, elem_of_union, !elem_of_singleton.
  by intros [->| ->].
Qed.

(** C4 on the manifests of scenario B. *)
Lemma analyze_requirements_no_conflict_witness :
  parse_requirements "flask==1.0" = (Some flask_1_0, None)
  ∧ parse_requirements "flask==2.0" = (Some flask_2_0, None)
  ∧ lists_versions flask_catalog flask_1_0 flask_2_0
  ∧ (lists_versions flask_catalog flask_1_0 flask_2_0 →
     ∃ rows resolved_content download_file all_resolved,
       analyze_requirements flask_catalog "flask==1.0" "flask==2.0"
         = Ok (VFrame rows, resolved_content, download_file, all_resolved)
       ∧ Forall (λ r, Status r ≠ CONFLICT) rows)
  ∧ (¬ lists_versions flask_catalog flask_1_0 flask_2_0 →
     analyze_requirements flask_catalog "flask==1.0" "flask==2.0"
       = Raise InvalidVersion)
  ∧ (∀ spec1 spec2 : SpecifierSet,
       merge_specifiers spec1 spec2 = None ↔
       SpecifierSet_bool spec1 = false ∧ SpecifierSet_bool spec2 = false).
Proof.
  split; [reflexivity|]. split; [reflexivity|].
  split; [exact lists_versions_flask|].
  apply (analyze_requirements_no_conflict flask_catalog
           "flask==1.0" "flask==2.0" flask_1_0 flask_2_0);
    reflexivity.
Defined.

(** C5 on the versions of scenario A. *)
Lemma select_version_maximum_witness :
  listed requests_catalog "requests"
    = Some [Pep440.Build_version [2; 4; 0]; Pep440.Build_version [2; 6; 0];
            Pep440.Build_version [2; 9; 0]; Pep440.Build_version [3; 0; 0]]%N
  ∧ let versions :=
      [Pep440.Build_version [2; 4; 0]; Pep440.Build_version [2; 6; 0];
       Pep440.Build_version [2; 9; 0]; Pep440.Build_version [3; 0; 0]]%N in
    let spec_set :=
      {| _specs := [clause Pep440.GreaterEqual [2; 5]%N;
                    clause Pep440.Less [3; 0]%N] |} in
    let satisfies ver :=
      SpecifierSet_contains spec_set (version_str ver) = true in
    (versions = [] →
       select_version requests_catalog (Some spec_set) "requests"
         = Ok (None, "No versions available"))
    ∧ (versions ≠ [] → (∃ ver, ver ∈ versions ∧ satisfies ver) →
       ∃ ver,
         select_version requests_catalog (Some spec_set) "requests"
           = Ok (Some ver, "Selected largest version: " ++ version_str ver)
         ∧ ver ∈ versions ∧ satisfies ver
         ∧ ∀ u, u ∈ versions → satisfies u → version_lt ver u = false)
    ∧ (versions ≠ [] → (∀ ver, ver ∈ versions → ¬ satisfies ver) →
       select_version requests_catalog (Some spec_set) "requests"
         = Ok (None, "No compatible version found in available versions")).
Proof.
  split; [reflexivity|].
  apply (select_version_maximum requests_catalog
           {| _specs := [clause Pep440.GreaterEqual [2; 5]%N;
                         clause Pep440.Less [3; 0]%N] |} "requests").
  reflexivity.
Defined.

(** C7 on the manifests and the catalog of scenario A. *)
Lemma analyze_requirements_merged_witness :
  parse_requirements "requests>=2.0,<3.0" = (Some requests_2_x, None)
  ∧ parse_requirements "requests>=2.5" = (Some requests_2_5, None)
  ∧ lists_versions requests_catalog requests_2_x requests_2_5
  ∧ ∃ rows resolved_content download_file all_resolved,
      analyze_requirements requests_catalog "requests>=2.0,<3.0" "requests>=2.5"
        = Ok (VFrame rows, resolved_content, download_file, all_resolved)
      ∧ (all_resolved = true ↔ Forall (λ r, Status r = RESOLVED) rows)
      ∧ Package <$> rows ≡ₚ elements (dom requests_2_x ∪ dom requests_2_5)
      ∧ StronglySorted (λ a b, String.ltb a b = true) (Package <$> rows)
      ∧ (resolved_content ≠ VNone ↔ all_resolved = true ∧ rows ≠ [])
      ∧ (all_resolved = true → rows ≠ [] →
         resolved_content = VStr (merged_manifest rows)).
Proof.
  split; [reflexivity|]. split; [reflexivity|].
  split; [exact lists_versions_requests|].
  apply (analyze_requirements_merged requests_catalog
           "requests>=2.0,<3.0" "requests>=2.5" requests_2_x requests_2_5);
    [reflexivity|reflexivity|exact lists_versions_requests].
Defined.

(** C8: the lookup of [obscurepkg] fails, and the answer for [pytz], the
    package of the other manifest, holds a key that is not a version.  The
    analysis returns no report, so no row for [obscurepkg]:
    [InvalidVersion] goes through it. *)
Theorem analyze_requirements_invalid_key :
  pypi_releases Scenario_more.pytz_catalog "obscurepkg" = None
  ∧ get_available_versions Scenario_more.pytz_catalog "obscurepkg" = Ok []
  ∧ pypi_releases Scenario_more.pytz_catalog "pytz" = Some ["2024.1"; "2004d"]
  ∧ version_parse "2004d" = None
  ∧ get_available_versions Scenario_more.pytz_catalog "pytz"
    = Raise InvalidVersion
  ∧ analyze_requirements Scenario_more.pytz_catalog "obscurepkg>=1.0" "pytz"
    = Raise InvalidVersion
  ∧ analyze_requirements Scenario_more.pytz_catalog "pytz" "pytz"
    = Raise InvalidVersion.
Proof. repeat split; reflexivity. Qed.

(** X14 on scenario D, next to a package that the catalog knows. *)
Lemma analyze_requirements_no_versions_witness :
  parse_requirements "obscurepkg>=1.0" = (Some obscurepkg_1_0, None)
  ∧ parse_requirements "flask==1.0" = (Some flask_1_0, None)
  ∧ lists_versions flask_catalog obscurepkg_1_0 flask_1_0
  ∧ "obscurepkg" ∈ dom obscurepkg_1_0 ∪ dom flask_1_0
  ∧ listed flask_catalog "obscurepkg" = Some []
  ∧ ∃ rows resolved_content download_file,
      analyze_requirements flask_catalog "obscurepkg>=1.0" "flask==1.0"
        = Ok (VFrame rows, resolved_content, download_file, false)
      ∧ (∃ r, r ∈ rows ∧ Package r = "obscurepkg" ∧ Status r = UNRESOLVED
              ∧ Reason r = "No versions available")
      ∧ ∀ w', (∀ q, q ≠ "obscurepkg" →
                 pypi_releases w' q = pypi_releases flask_catalog q) →
          is_Some (listed w' "obscurepkg") →
          ∃ rows' resolved_content' download_file' all_resolved',
            analyze_requirements w' "obscurepkg>=1.0" "flask==1.0"
              = Ok (VFrame rows', resolved_content', download_file',
                    all_resolved')
            ∧ filter (λ r, Package r ≠ "obscurepkg") rows'
              = filter (λ r, Package r ≠ "obscurepkg") rows.
Proof.
  assert ("obscurepkg" ∈ dom obscurepkg_1_0 ∪ dom flask_1_0) as Hin.
  { apply elem_of_union. left. apply elem_of_dom. eexists.
    reflexivity. }
  assert (lists_versions flask_catalog obscurepkg_1_0 flask_1_0) as Hlisted.
  { apply lists_versions_two; by eexists. }
  split; [reflexivity|]. split; [reflexivity|].
  split; [exact Hlisted|]. split; [exact Hin|]. split; [reflexivity|].
  apply (analyze_requirements_no_versions flask_catalog
           "obscurepkg>=1.0" "flask==1.0" obscurepkg_1_0 flask_1_0
           "obscurepkg"); [reflexivity|reflexivity|exact Hlisted|exact Hin|].
  reflexivity.
Defined.


Example parse_requirements_twice_flask :
  parse_requirements twice_flask
    = (Some (<["requests" := {| _specs := [clause Pep440.GreaterEqual [2; 5]%N] |}]>
               flask_2_0), None)
  ∧ parse_requirements ("requests>=2.5" ++ nl ++ "Flask ==2.0")
    = parse_requirements twice_flask.
Proof. split; reflexivity. Qed.

(** An earlier line whose clause is invalid aborts the parse, whatever
    follows. *)
Example parse_requirements_invalid_first :
  parse_requirements ("flask@@@bad" ++ nl ++ "flask==2.0")
    = (None, Some "Invalid specifier for flask: @@@bad").
Proof. reflexivity. Qed.

(** C10 on an empty first text. *)
Lemma compare_requirements_prompt_witness :
  truthy_content (Some "") = false
  ∧ compare_requirements flask_catalog (Some "") (Some "flask==1.0")
      = Ok (VNone, VNone, VNone, false,
            VStr "Please provide content for both requirements.txt files.")
  ∧ parse_requirements "" = (Some ∅, None).
Proof.
  split; [reflexivity|].
  apply (compare_requirements_prompt flask_catalog (Some "") (Some "flask==1.0")).
  left. reflexivity.
Defined.

(** The selection on the versions of scenario A. *)
Example select_version_requests :
  select_version requests_catalog
      (Some {| _specs := [clause Pep440.GreaterEqual [2; 5]%N;
                          clause Pep440.Less [3; 0]%N] |}) "requests"
    = Ok (Some (Pep440.Build_version [2; 9; 0]%N),
          "Selected largest version: 2.9.0").
Proof. vm_compute. reflexivity. Qed.

End scenario_facts.

(** ** More on the parser *)

Section parse_more.
Context `{Packaging}.

Lemma parse_line_invalid dependencies line p :
  line_package line = Some p → line_constraints line = None →
  parse_line dependencies line
    = inl ("Invalid specifier for " ++ p ++ ": " ++ line_clause line).
Proof.
  unfold line_package, line_constraints, line_clause, parse_line.
  destruct (_ && _); [|done].
  destruct (re_match _) as [[g1 g2]|]; [|done]. simpl.
  intros [= <-].
  destruct (Py.truthy_str (Py.strip g2)); [|done].
  by destruct (SpecifierSet_new _).
Qed.

Lemma parse_line_accepted dependencies line :
  line_accepted line → ∃ d, parse_line dependencies line = inr d.
Proof.
  intros [Hnone|[s Hs]].
  - exists dependencies. by apply parse_line_skip.
  - destruct (line_package line) as [p|] eqn:Hp.
    + pose proof (parse_line_insert dependencies line p Hp) as Hins.
      rewrite Hs in Hins. by eexists.
    + exists dependencies. by apply parse_line_skip.
Qed.

Lemma parse_lines_accepted dependencies lines :
  Forall line_accepted lines ↔ ∃ d, parse_lines dependencies lines = inr d.
Proof.
  revert dependencies. induction lines as [|line lines IH]; intros deps; simpl.
  { split; [by eexists|constructor]. }
  split.
  - intros [Hline Hlines]%Forall_cons.
    destruct (parse_line_accepted deps line Hline) as [d ->]. by apply IH.
  - intros [d Hd]. destruct (parse_line deps line) as [|d'] eqn:Hline; [done|].
    constructor; [|apply (IH d'); by eexists].
    destruct (line_package line) as [p|] eqn:Hp; [|by left].
    right. pose proof (parse_line_insert deps line p Hp) as Hins.
    destruct (line_constraints line); [by eexists|].
    destruct Hins as [msg Hmsg]. by rewrite Hmsg in Hline.
Qed.

(** X1: the parse returns a manifest exactly when every line that names a
    package has a valid clause; otherwise it returns the message for the
    first line that has not, with its package in lower case and its clause
    stripped, whatever the lines after it hold. *)
Theorem parse_requirements_first_invalid file_content :
  (is_Some (parse_requirements file_content).1
     ↔ Forall line_accepted (Py.splitlines file_content))
  ∧ ∀ (before : list string) line (after : list string) p,
      Py.splitlines file_content = (before ++ line :: after)%list →
      Forall line_accepted before →
      line_package line = Some p →
      line_constraints line = None →
      parse_requirements file_content
        = (None,
           Some ("Invalid specifier for " ++ p ++ ": " ++ line_clause line)).
Proof.
  split.
  - rewrite (parse_lines_accepted ∅). unfold parse_requirements.
    destruct (parse_lines ∅ _) as [msg|d]; simpl; split.
    + by intros [? ?].
    + by intros [? ?].
    + by eexists.
    + by eexists.
  - intros before line after p Hlines Hbefore Hp Hnone.
    unfold parse_requirements. rewrite Hlines, parse_lines_app.
    apply (parse_lines_accepted ∅) in Hbefore as [d ->]. simpl.
    by rewrite (parse_line_invalid d line p Hp Hnone).
Qed.

(** Lines that name no package change nothing. *)
Lemma parse_lines_skip dependencies (before : list string) line
    (after : list string) :
  line_package line = None →
  parse_lines dependencies (before ++ line :: after)
    = parse_lines dependencies (before ++ after).
Proof.
  intros Hnone. rewrite !parse_lines_app.
  destruct (parse_lines dependencies before) as [|d]; [done|].
  simpl. by rewrite (parse_line_skip d line Hnone).
Qed.

(** X2: a blank line, a comment, and a line that does not start with a
    name character have no effect: the text without the line parses to
    the same result. *)
Theorem parse_requirements_ignores_line file_content file_content'
    (before : list string) line (after : list string) :
  Py.splitlines file_content = (before ++ line :: after)%list →
  Py.splitlines file_content' = (before ++ after)%list →
  Py.strip line = ""
    ∨ Py.startswith "#" (Py.strip line) = true
    ∨ re_match (Py.strip line) = None →
  parse_requirements file_content' = parse_requirements file_content.
Proof.
  intros Hlines Hlines' Hline. unfold parse_requirements.
  rewrite Hlines, Hlines', parse_lines_skip; [done|].
  unfold line_package. destruct Hline as [->| [->|Hre]]; [done| |].
  - by rewrite andb_false_r.
  - rewrite Hre. by destruct (_ && _).
Qed.

Lemma span_name_chars s :
  all_chars is_name_char (span_name s).1 = true.
Proof.
  induction s as [|c s IH]; simpl; [done|].
  destruct (is_name_char c) eqn:Hc; [|done].
  destruct (span_name s). simpl in *. by rewrite Hc, IH.
Qed.

Lemma lower_char_key c :
  is_name_char c = true →
  is_key_char (Py.lower_char c) = true
  ∧ Py.lower_char (Py.lower_char c) = Py.lower_char c.
Proof. by destruct c as [[] [] [] [] [] [] [] []]. Qed.

Lemma lower_key s :
  all_chars is_name_char s = true →
  all_chars is_key_char (Py.lower s) = true ∧ Py.lower (Py.lower s) = Py.lower s.
Proof.
  induction s as [|c s IH]; simpl; [done|].
  intros [Hc Hs]%andb_true_iff.
  destruct (lower_char_key c Hc) as [-> ->], (IH Hs) as [-> ->]. done.
Qed.

(** The package of a line is a key: not empty, in lower case, made of
    lower-case letters, digits, underscores and hyphens. *)
Lemma line_package_key line p :
  line_package line = Some p →
  p ≠ "" ∧ Py.lower p = p ∧ all_chars is_key_char p = true.
Proof.
  unfold line_package, re_match.
  destruct (_ && _); [|done].
  pose proof (span_name_chars (Py.strip line)) as Hchars.
  destruct (span_name (Py.strip line)) as [n r]. simpl in Hchars.
  destruct n as [|c n]; [done|]. simpl. intros [= <-].
  destruct (lower_key _ Hchars) as [Hkey Hlower].
  split; [done|]. by split.
Qed.

Lemma parse_lines_dom dependencies lines d p :
  parse_lines dependencies lines = inr d →
  p ∈ dom d ↔
  p ∈ dom dependencies ∨ ∃ line, line ∈ lines ∧ line_package line = Some p.
Proof.
  revert dependencies. induction lines as [|line lines IH]; intros deps; simpl.
  { intros [= ->]. split; [by left|]. intros [?|(l & Hl & _)]; [done|].
    by apply elem_of_nil in Hl. }
  intros Hparse.
  destruct (line_package line) as [q|] eqn:Hq.
  - pose proof (parse_line_insert deps line q Hq) as Hins.
    destruct (line_constraints line) as [s|]; cycle 1.
    { destruct Hins as [msg Hmsg]. by rewrite Hmsg in Hparse. }
    rewrite Hins in Hparse. rewrite (IH _ Hparse), dom_insert_L.
    rewrite elem_of_union, elem_of_singleton. split.
    + intros [[->|?]|(l & Hl & Hp)]; [right|by left|right].
      * exists line. split; [left|done].
      * exists l. split; [by right|done].
    + intros [?|(l & [->|Hl]%elem_of_cons & Hp)].
      * left. by right.
      * left. left. congruence.
      * right. by exists l.
  - rewrite (parse_line_skip _ _ Hq) in Hparse. rewrite (IH _ Hparse). split.
    + intros [?|(l & Hl & Hp)]; [by left|right]. exists l. split; [by right|done].
    + intros [?|(l & [->|Hl]%elem_of_cons & Hp)]; [by left|congruence|].
      right. by exists l.
Qed.

(** X3: the keys of the manifest that a parse returns are the packages
    that its lines name, and each is a non-empty name in lower case, made
    of lower-case letters, digits, underscores and hyphens. *)
Theorem parse_requirements_keys file_content dependencies :
  parse_requirements file_content = (Some dependencies, None) →
  ∀ p,
    (p ∈ dom dependencies ↔
     ∃ line, line ∈ Py.splitlines file_content ∧ line_package line = Some p)
    ∧ (p ∈ dom dependencies →
       p ≠ "" ∧ Py.lower p = p ∧ all_chars is_key_char p = true).
Proof.
  intros Hparse%parse_requirements_lines p.
  pose proof (parse_lines_dom ∅ _ _ p Hparse) as Hdom.
  rewrite dom_empty_L in Hdom.
  assert (p ∈ dom dependencies ↔
          ∃ line, line ∈ Py.splitlines file_content
                  ∧ line_package line = Some p) as Hkeys.
  { rewrite Hdom. split; [|by right]. by intros [?%elem_of_empty|?]. }
  split; [done|].
  intros (line & _ & Hline)%Hkeys. by apply (line_package_key line).
Qed.
End parse_more.

(** ** More on the catalog and the selection *)

Section selection_more.
Context `{Packaging}.

Lemma listed_None w pkg :
  listed w pkg = None
  ↔ ∃ keys key,
      pypi_releases w pkg = Some keys ∧ key ∈ keys ∧ version_parse key = None.
Proof.
  unfold listed. destruct (pypi_releases w pkg) as [keys|].
  - rewrite mapM_None, Exists_exists. split.
    + intros (key & Hkey & Hnone). by exists keys, key.
    + intros (keys' & key & [= <-] & Hkey & Hnone). by exists key.
  - split; [done|]. by intros (keys & key & Hkeys & _).
Qed.

(** X4: what [get_available_versions] makes of the answer of the index.
    When the lookup fails it returns no version.  When every key of the
    answer is a version it returns these versions, each as often as it is
    listed, in descending order.  When a key is not a version, and only
    then, it raises [InvalidVersion]: the handler of the function does not
    name this exception. *)
Theorem get_available_versions_sorted w pkg :
  (pypi_releases w pkg = None → get_available_versions w pkg = Ok [])
  ∧ (∀ keys versions,
       pypi_releases w pkg = Some keys →
       Forall2 (λ key ver, version_parse key = Some ver) keys versions →
       ∃ available_versions,
         get_available_versions w pkg = Ok available_versions
         ∧ available_versions ≡ₚ versions
         ∧ StronglySorted (λ a b, version_lt a b = false) available_versions)
  ∧ (get_available_versions w pkg = Raise InvalidVersion
     ↔ ∃ keys key,
         pypi_releases w pkg = Some keys ∧ key ∈ keys
         ∧ version_parse key = None)
  ∧ (∀ e, get_available_versions w pkg = Raise e → e = InvalidVersion).
Proof.
  split; [|split; [|split]].
  - intros Hnone. unfold get_available_versions. by rewrite Hnone.
  - intros keys versions Hkeys Hparse. apply mapM_Some in Hparse.
    assert (listed w pkg = Some versions) as Hlisted
      by (unfold listed; by rewrite Hkeys).
    exists (available w pkg).
    split; [by rewrite get_available_versions_listed, Hlisted|].
    split; [|apply available_descending].
    by rewrite available_Permutation, Hlisted.
  - rewrite <-listed_None, get_available_versions_listed.
    by destruct (listed w pkg).
  - intros e. rewrite get_available_versions_listed.
    destruct (listed w pkg); [done|]. by intros [= <-].
Qed.

Lemma selected_Some w spec_set pkg ver reason :
  selected w spec_set pkg = (Some ver, reason) →
  ver ∈ default [] (listed w pkg)
  ∧ SpecifierSet_contains spec_set (version_str ver) = true
  ∧ reason = "Selected largest version: " ++ version_str ver
  ∧ ∀ u, u ∈ default [] (listed w pkg) →
         SpecifierSet_contains spec_set (version_str u) = true →
         version_lt ver u = false.
Proof.
  unfold selected. intros Hsel.
  pose proof (available_descending w pkg) as Hsorted.
  pose proof (available_Permutation w pkg) as Hperm.
  destruct (available w pkg) as [|v l] eqn:Havail; [done|].
  destruct (find _ (v :: l)) as [ver'|] eqn:Hfind; [|done].
  injection Hsel as -> <-.
  destruct (find_Some_elem _ _ _ Hfind) as [Hin Htest].
  split; [by rewrite <-Hperm|]. split; [done|]. split; [done|].
  intros u Hu Hsat. rewrite <-Hperm in Hu.
  by apply (find_StronglySorted _ descending _ _ Hsorted Hfind).
Qed.

Lemma selected_None w spec_set pkg reason :
  selected w spec_set pkg = (None, reason) →
  (default [] (listed w pkg) = [] ∧ reason = "No versions available")
  ∨ (default [] (listed w pkg) ≠ []
     ∧ reason = "No compatible version found in available versions"
     ∧ ∀ u, u ∈ default [] (listed w pkg) →
            SpecifierSet_contains spec_set (version_str u) = false).
Proof.
  unfold selected. intros Hsel.
  pose proof (available_Permutation w pkg) as Hperm.
  pose proof (available_nil w pkg) as Hnil.
  destruct (available w pkg) as [|v l] eqn:Havail.
  { left. injection Hsel as <-. split; [by apply Hnil|done]. }
  right. destruct (find _ (v :: l)) as [ver'|] eqn:Hfind; [done|].
  injection Hsel as <-. split; [|split; [done|]].
  - intros Hempty. by apply Hnil in Hempty.
  - intros u Hu. rewrite <-Hperm in Hu.
    by apply (find_None_iff _ _ ) with (x := u) in Hfind.
Qed.

(** X5: the selection does not depend on the order in which the index
    lists the versions.  For two answers whose versions are permutations
    of each other, either no version is selected in both cases, with the
    same reason, or the two selected versions compare equal. *)
Theorem select_version_any_order w w' spec_set pkg versions versions' :
  listed w pkg = Some versions → listed w' pkg = Some versions' →
  versions ≡ₚ versions' →
  ∃ selection selection' reason reason',
    select_version w (Some spec_set) pkg = Ok (selection, reason)
    ∧ select_version w' (Some spec_set) pkg = Ok (selection', reason')
    ∧ match selection, selection' with
      | Some ver, Some ver' =>
          version_lt ver ver' = false ∧ version_lt ver' ver = false
      | None, None => reason = reason'
      | _, _ => False
      end.
Proof.
  intros Hlisted Hlisted' Hperm.
  rewrite !select_version_first by (by eexists).
  pose proof (selected_Some w spec_set pkg) as HSome.
  pose proof (selected_None w spec_set pkg) as HNone.
  pose proof (selected_Some w' spec_set pkg) as HSome'.
  pose proof (selected_None w' spec_set pkg) as HNone'.
  rewrite Hlisted in HSome, HNone. rewrite Hlisted' in HSome', HNone'.
  simpl in HSome, HNone, HSome', HNone'.
  destruct (selected w spec_set pkg) as [[ver|] reason] eqn:Hsel,
    (selected w' spec_set pkg) as [[ver'|] reason'] eqn:Hsel';
    eexists _, _, _, _; (split; [done|]); (split; [done|]).
  - destruct (HSome _ _ eq_refl) as (Hin & Hsat & _ & Hmax).
    destruct (HSome' _ _ eq_refl) as (Hin' & Hsat' & _ & Hmax').
    split.
    + apply Hmax; [by rewrite Hperm|done].
    + apply Hmax'; [by rewrite <-Hperm|done].
  - destruct (HSome _ _ eq_refl) as (Hin & Hsat & _).
    destruct (HNone' _ eq_refl) as [[Hnil _]|(_ & _ & Hall)].
    + rewrite Hperm, Hnil in Hin. by apply elem_of_nil in Hin.
    + rewrite Hperm in Hin. specialize (Hall _ Hin). congruence.
  - destruct (HSome' _ _ eq_refl) as (Hin & Hsat & _).
    destruct (HNone _ eq_refl) as [[Hnil _]|(_ & _ & Hall)].
    + rewrite <-Hperm, Hnil in Hin. by apply elem_of_nil in Hin.
    + rewrite <-Hperm in Hin. specialize (Hall _ Hin). congruence.
  - destruct (HNone _ eq_refl) as [[Hnil ->]|(Hne & -> & _)];
      destruct (HNone' _ eq_refl) as [[Hnil' ->]|(Hne' & -> & _)]; try done.
    + rewrite Hnil in Hperm. symmetry in Hperm.
      by apply Permutation_nil_r in Hperm.
    + rewrite Hnil' in Hperm. by apply Permutation_nil_r in Hperm.
Qed.
End selection_more.

(** ** More on the report *)

Section report_more.
Context `{Packaging}.

Lemma set_union_nil_r (l : list Specifier) : set_union l [] = l.
Proof. unfold set_union. by rewrite filter_nil, app_nil_r. Qed.

Lemma SpecifierSet_and_unconstrained_r a :
  SpecifierSet_and a unconstrained = a.
Proof.
  destruct a as [l]. unfold SpecifierSet_and; simpl. by rewrite set_union_nil_r.
Qed.

Lemma row_of_fields w deps1 deps2 pkg :
  row_of w deps1 deps2 pkg
  = {| Package := pkg;
       Status := status_text (selected w (effective deps1 deps2 pkg) pkg).1;
       Compatible_Interval := interval deps1 deps2 pkg;
       Selected_Version :=
         selected_text (selected w (effective deps1 deps2 pkg) pkg).1;
       Reason := (selected w (effective deps1 deps2 pkg) pkg).2 |}.
Proof. unfold row_of. by destruct (selected _ _ _) as [[ver|] reason]. Qed.

Lemma row_of_elem w deps1 deps2 pkg :
  pkg ∈ dom deps1 ∪ dom deps2 →
  row_of w deps1 deps2 pkg ∈ row_of w deps1 deps2 <$> packages deps1 deps2.
Proof.
  intros Hpkg. apply list_elem_of_fmap. exists pkg. split; [done|].
  rewrite packages_Permutation. by apply elem_of_elements.
Qed.

Lemma report_rows w deps1 deps2 :
  ∃ resolved_content download_file all_resolved,
    report w deps1 deps2
      = (VFrame (row_of w deps1 deps2 <$> packages deps1 deps2),
         resolved_content, download_file, all_resolved).
Proof. unfold report. destruct (_ && _); by eexists _, _, _. Qed.

(** X6: a package that only one of the two manifests names keeps the
    constraint set of that manifest: its row words the interval from that
    set alone ("Any version" when the set has no clause) and holds what
    [select_version] selects for that set.  (The index lists versions only
    for the packages of the manifests: there is a report.) *)
Theorem analyze_requirements_single_manifest w file1 file2 deps1 deps2
    pkg spec_set :
  parse_requirements file1 = (Some deps1, None) →
  parse_requirements file2 = (Some deps2, None) →
  lists_versions w deps1 deps2 →
  (deps1 !! pkg = Some spec_set ∧ deps2 !! pkg = None)
    ∨ (deps1 !! pkg = None ∧ deps2 !! pkg = Some spec_set) →
  ∃ rows resolved_content download_file all_resolved selection reason,
    analyze_requirements w file1 file2
      = Ok (VFrame rows, resolved_content, download_file, all_resolved)
    ∧ select_version w (Some spec_set) pkg = Ok (selection, reason)
    ∧ {| Package := pkg;
         Status := status_text selection;
         Compatible_Interval :=
           if SpecifierSet_bool spec_set then SpecifierSet_str spec_set
           else "Any version";
         Selected_Version := selected_text selection;
         Reason := reason |} ∈ rows.
Proof.
  intros Hparse1 Hparse2 Hlisted Honly.
  rewrite (analyze_requirements_report _ _ _ _ _ Hparse1 Hparse2 Hlisted).
  destruct (report_rows w deps1 deps2) as (content & dl & ar & ->).
  assert (pkg ∈ dom deps1 ∪ dom deps2) as Hpkg.
  { apply elem_of_union.
    destruct Honly as [[H1 _]|[_ H2]]; [left|right]; by apply elem_of_dom. }
  rewrite select_version_first by (by apply Hlisted).
  assert (effective deps1 deps2 pkg = spec_set
          ∧ interval deps1 deps2 pkg
            = if SpecifierSet_bool spec_set then SpecifierSet_str spec_set
              else "Any version") as [Heff Hint].
  { unfold interval, effective.
    destruct Honly as [[-> ->]|[-> ->]]; simpl.
    - rewrite SpecifierSet_and_unconstrained_r, andb_true_r.
      by destruct (SpecifierSet_bool spec_set).
    - rewrite SpecifierSet_and_unconstrained_l.
      by destruct (SpecifierSet_bool spec_set). }
  pose proof (row_of_elem w deps1 deps2 pkg Hpkg) as Hin.
  rewrite row_of_fields, Heff, Hint in Hin.
  destruct (selected w spec_set pkg) as [selection reason].
  by eexists _, _, _, _, _, _.
Qed.

(** X7: every row of the report is either resolved, with a version that
    the index lists for the package and that the clauses of both manifests
    together contain, or unresolved, with a dash for the version and one
    of the two reasons of a failed selection.  (The index lists versions
    only for the packages of the manifests: there is a report.) *)
Theorem analyze_requirements_rows w file1 file2 deps1 deps2 :
  parse_requirements file1 = (Some deps1, None) →
  parse_requirements file2 = (Some deps2, None) →
  lists_versions w deps1 deps2 →
  ∃ rows resolved_content download_file all_resolved,
    analyze_requirements w file1 file2
      = Ok (VFrame rows, resolved_content, download_file, all_resolved)
    ∧ Forall (λ r,
        (Status r = RESOLVED
         ∧ ∃ ver,
             ver ∈ default [] (listed w (Package r))
             ∧ SpecifierSet_contains
                 (SpecifierSet_and
                    (default unconstrained (deps1 !! Package r))
                    (default unconstrained (deps2 !! Package r)))
                 (version_str ver) = true
             ∧ Selected_Version r = version_str ver
             ∧ Reason r = "Selected largest version: " ++ version_str ver)
        ∨ (Status r = UNRESOLVED
           ∧ Selected_Version r = "-"
           ∧ (Reason r = "No versions available"
              ∨ Reason r
                = "No compatible version found in available versions")))
        rows.
Proof.
  intros Hparse1 Hparse2 Hlisted.
  rewrite (analyze_requirements_report _ _ _ _ _ Hparse1 Hparse2 Hlisted).
  destruct (report_rows w deps1 deps2) as (content & dl & ar & ->).
  eexists _, _, _, _. split; [done|].
  apply Forall_fmap, Forall_forall. intros pkg _. simpl.
  rewrite row_of_fields. simpl.
  destruct (selected w (effective deps1 deps2 pkg) pkg)
    as [[ver|] reason] eqn:Hsel; simpl.
  - left. split; [done|]. exists ver.
    by apply selected_Some in Hsel as (? & ? & ? & _).
  - right. split; [done|]. split; [done|].
    apply selected_None in Hsel as [[_ ->]|(_ & -> & _)]; auto.
Qed.

Lemma lists_versions_or w deps1 deps2 :
  lists_versions w deps1 deps2
  ∨ ∃ pkg, pkg ∈ dom deps1 ∪ dom deps2 ∧ listed w pkg = None.
Proof.
  destruct (decide (Forall (λ pkg, is_Some (listed w pkg))
                      (elements (dom deps1 ∪ dom deps2)))) as [Hall|Hex].
  - left. intros pkg Hpkg.
    rewrite Forall_forall in Hall. by apply Hall, elem_of_elements.
  - right. apply not_Forall_Exists in Hex; [|apply _].
    apply Exists_exists in Hex as (pkg & Hpkg & Hnone).
    exists pkg. split; [by apply elem_of_elements|].
    simpl in Hnone. by destruct (listed w pkg); [destruct Hnone; eexists|].
Qed.

Lemma listed_same_answer w w' pkg :
  pypi_releases w' pkg = pypi_releases w pkg → listed w' pkg = listed w pkg.
Proof. intros Hsame. unfold listed. by rewrite Hsame. Qed.

(** X8: the analysis asks the index about the packages of the two
    manifests only: two indexes that answer alike for them give the same
    result, a report or the same exception. *)
Theorem analyze_requirements_catalog_local w w' file1 file2 deps1 deps2 :
  parse_requirements file1 = (Some deps1, None) →
  parse_requirements file2 = (Some deps2, None) →
  (∀ pkg, pkg ∈ dom deps1 ∪ dom deps2 →
          pypi_releases w' pkg = pypi_releases w pkg) →
  temp_file w' = temp_file w →
  analyze_requirements w' file1 file2 = analyze_requirements w file1 file2.
Proof.
  intros Hparse1 Hparse2 Hsame Htemp.
  destruct (lists_versions_or w deps1 deps2)
    as [Hlisted|(pkg & Hpkg & Hnone)]; cycle 1.
  { rewrite (analyze_requirements_raise w _ _ _ _ pkg Hparse1 Hparse2 Hpkg
               Hnone).
    apply (analyze_requirements_raise w' _ _ _ _ pkg Hparse1 Hparse2 Hpkg).
    by rewrite (listed_same_answer w w') by auto. }
  assert (lists_versions w' deps1 deps2) as Hlisted'.
  { intros pkg Hpkg. rewrite (listed_same_answer w w') by auto. auto. }
  rewrite (analyze_requirements_report _ _ _ _ _ Hparse1 Hparse2 Hlisted),
    (analyze_requirements_report _ _ _ _ _ Hparse1 Hparse2 Hlisted').
  unfold report. rewrite Htemp.
  assert (row_of w' deps1 deps2 <$> packages deps1 deps2
          = row_of w deps1 deps2 <$> packages deps1 deps2) as ->; [|done].
  apply Forall_fmap_ext_1, Forall_forall. intros pkg Hpkg.
  apply row_of_same_answer, Hsame.
  rewrite packages_Permutation in Hpkg. by apply elem_of_elements.
Qed.

Lemma parse_line_message dependencies line msg :
  parse_line dependencies line = inl msg → Py.truthy_str msg = true.
Proof.
  unfold parse_line. destruct (_ && _); [|done].
  destruct (re_match _) as [[g1 g2]|]; [|done].
  destruct (Py.truthy_str (Py.strip g2)); [|done].
  destruct (SpecifierSet_new _); [done|]. by intros [= <-].
Qed.

(** The two shapes of what [parse_requirements] returns. *)
Lemma parse_requirements_shape file_content :
  (∃ dependencies, parse_requirements file_content = (Some dependencies, None))
  ∨ (∃ msg, parse_requirements file_content = (None, Some msg)
            ∧ Py.truthy_str msg = true).
Proof.
  unfold parse_requirements.
  destruct (parse_lines ∅ _) as [msg|d] eqn:Hparse; [right|left; by eexists].
  exists msg. split; [done|].
  revert Hparse. generalize (∅ : gmap string SpecifierSet).
  induction (Py.splitlines file_content) as [|line lines IH]; intros d; [done|].
  simpl. destruct (parse_line d line) as [msg'|d'] eqn:Hline.
  - intros [= <-]. by apply (parse_line_message d line).
  - apply IH.
Qed.

Lemma analyze_requirements_first_error w file1 file2 msg :
  parse_requirements file1 = (None, Some msg) →
  analyze_requirements w file1 file2 = Ok (VNone, VNone, VStr msg, false).
Proof.
  intros Hparse1.
  destruct (parse_requirements_shape file1) as [[d Hd]|(m & Hm & Htruthy)];
    [congruence|].
  assert (m = msg) as -> by congruence.
  unfold analyze_requirements. rewrite Hparse1.
  destruct (parse_requirements file2) as [d2 e2]. simpl.
  unfold error_or. simpl. by rewrite Htruthy.
Qed.

Lemma analyze_requirements_second_error w file1 file2 deps1 msg :
  parse_requirements file1 = (Some deps1, None) →
  parse_requirements file2 = (None, Some msg) →
  analyze_requirements w file1 file2 = Ok (VNone, VNone, VStr msg, false).
Proof.
  intros Hparse1 Hparse2.
  destruct (parse_requirements_shape file2) as [[d Hd]|(m & Hm & Htruthy)];
    [congruence|].
  assert (m = msg) as -> by congruence.
  unfold analyze_requirements. rewrite Hparse1, Hparse2. simpl.
  by rewrite Htruthy.
Qed.

(** What the analysis ends in: a tuple, or [InvalidVersion] for a key
    that is not a version in the answer for a package of two texts that
    parse. *)
Lemma analyze_requirements_outcome w file1 file2 :
  (∃ results_df resolved_content download_file all_resolved,
     analyze_requirements w file1 file2
       = Ok (results_df, resolved_content, download_file, all_resolved))
  ∨ (analyze_requirements w file1 file2 = Raise InvalidVersion
     ∧ ∃ deps1 deps2 pkg,
         parse_requirements file1 = (Some deps1, None)
         ∧ parse_requirements file2 = (Some deps2, None)
         ∧ pkg ∈ dom deps1 ∪ dom deps2 ∧ listed w pkg = None).
Proof.
  destruct (parse_requirements_shape file1) as [[d1 Hd1]|(m1 & Hm1 & _)].
  - destruct (parse_requirements_shape file2) as [[d2 Hd2]|(m2 & Hm2 & _)].
    + destruct (lists_versions_or w d1 d2) as [Hlisted|(pkg & Hpkg & Hnone)].
      * left. rewrite (analyze_requirements_report _ _ _ _ _ Hd1 Hd2 Hlisted).
        destruct (report w d1 d2) as [[[? ?] ?] ?]. by eexists _, _, _, _.
      * right. split; [|by exists d1, d2, pkg].
        by apply (analyze_requirements_raise w _ _ d1 d2 pkg).
    + left. rewrite (analyze_requirements_second_error _ _ _ _ _ Hd1 Hm2).
      by eexists _, _, _, _.
  - left. rewrite (analyze_requirements_first_error _ _ _ _ Hm1).
    by eexists _, _, _, _.
Qed.

(** X9: when the first text does not parse, the analysis returns its
    message, whatever the second text is; when only the second does not,
    the message of the second.  In both cases there is no table, no merged
    manifest, and [all_resolved] is false.  The analysis raises an
    exception exactly when both texts parse and the answer of the index
    for one of their packages holds a key that is not a version; the
    exception is [InvalidVersion], which no handler of the program
    names. *)
Theorem analyze_requirements_errors w file1 file2 :
  (∀ msg, parse_requirements file1 = (None, Some msg) →
          analyze_requirements w file1 file2
            = Ok (VNone, VNone, VStr msg, false))
  ∧ (∀ deps1 msg,
       parse_requirements file1 = (Some deps1, None) →
       parse_requirements file2 = (None, Some msg) →
       analyze_requirements w file1 file2 = Ok (VNone, VNone, VStr msg, false))
  ∧ (∀ deps1 deps2 pkg keys key,
       parse_requirements file1 = (Some deps1, None) →
       parse_requirements file2 = (Some deps2, None) →
       pkg ∈ dom deps1 ∪ dom deps2 →
       pypi_releases w pkg = Some keys → key ∈ keys →
       version_parse key = None →
       analyze_requirements w file1 file2 = Raise InvalidVersion)
  ∧ ((∃ outcome, analyze_requirements w file1 file2 = Ok outcome)
     ∨ (analyze_requirements w file1 file2 = Raise InvalidVersion
        ∧ ∃ deps1 deps2 pkg keys key,
            parse_requirements file1 = (Some deps1, None)
            ∧ parse_requirements file2 = (Some deps2, None)
            ∧ pkg ∈ dom deps1 ∪ dom deps2
            ∧ pypi_releases w pkg = Some keys ∧ key ∈ keys
            ∧ version_parse key = None)).
Proof.
  split; [apply analyze_requirements_first_error|].
  split; [apply analyze_requirements_second_error|]. split.
  - intros deps1 deps2 pkg keys key Hparse1 Hparse2 Hpkg Hkeys Hkey Hnone.
    apply (analyze_requirements_raise w _ _ deps1 deps2 pkg); [done..|].
    apply listed_None. by exists keys, key.
  - destruct (analyze_requirements_outcome w file1 file2)
      as [(t & m & d & a & ->)
         |(-> & d1 & d2 & pkg & Hd1 & Hd2 & Hpkg & Hnone)].
    + left. by eexists.
    + right. split; [done|].
      apply listed_None in Hnone as (keys & key & Hkeys & Hkey & Hnone).
      by exists d1, d2, pkg, keys, key.
Qed.
End report_more.

(** ** More on the comparison and the interface *)

Section interface_facts.
Context `{Packaging}.

(** The first two places of the tuple of [analyze_requirements]: no
    string in the first, no data frame in the second. *)
Lemma analyze_requirements_places w file1 file2 results_df resolved_content
    download_file all_resolved :
  analyze_requirements w file1 file2
    = Ok (results_df, resolved_content, download_file, all_resolved) →
  (results_df = VNone ∨ ∃ rows, results_df = VFrame rows)
  ∧ (resolved_content = VNone ∨ ∃ text, resolved_content = VStr text).
Proof.
  destruct (parse_requirements_shape file1) as [[d1 Hd1]|(m1 & Hm1 & _)].
  - destruct (parse_requirements_shape file2) as [[d2 Hd2]|(m2 & Hm2 & _)].
    + destruct (lists_versions_or w d1 d2) as [Hlisted|(pkg & Hpkg & Hnone)];
        cycle 1.
      { by rewrite (analyze_requirements_raise w _ _ _ _ pkg Hd1 Hd2 Hpkg
                      Hnone). }
      rewrite (analyze_requirements_report _ _ _ _ _ Hd1 Hd2 Hlisted).
      unfold report.
      destruct (_ && _); intros [= <- <- _ _]; split; eauto.
    + rewrite (analyze_requirements_second_error _ _ _ _ _ Hd1 Hm2).
      intros [= <- <- _ _]. by split; left.
  - rewrite (analyze_requirements_first_error _ _ _ _ Hm1).
    intros [= <- <- _ _]. by split; left.
Qed.

Lemma truthy_content_Some content :
  truthy_content content = true →
  ∃ text, content = Some text ∧ Py.truthy_str text = true.
Proof. destruct content as [text|]; [|done]. by exists text. Qed.

(** What [compare_requirements] makes of the tuple of the analysis. *)
Lemma compare_requirements_analyze w file1 file2 results_df resolved_content
    download_file all_resolved :
  Py.truthy_str file1 = true → Py.truthy_str file2 = true →
  analyze_requirements w file1 file2
    = Ok (results_df, resolved_content, download_file, all_resolved) →
  compare_requirements w (Some file1) (Some file2)
    = Ok (results_df, resolved_content, download_file, all_resolved, VNone).
Proof.
  intros Hfile1 Hfile2 Hanalyze.
  destruct (analyze_requirements_places _ _ _ _ _ _ _ Hanalyze)
    as [[->|[rows ->]] _];
    unfold compare_requirements; simpl;
    by rewrite Hfile1, Hfile2, Hanalyze.
Qed.

(** An exception of the analysis goes through the comparison. *)
Lemma compare_requirements_raise w file1 file2 e :
  Py.truthy_str file1 = true → Py.truthy_str file2 = true →
  analyze_requirements w file1 file2 = Raise e →
  compare_requirements w (Some file1) (Some file2) = Raise e.
Proof.
  intros Hfile1 Hfile2 Hanalyze. unfold compare_requirements; simpl.
  by rewrite Hfile1, Hfile2, Hanalyze.
Qed.

(** X10: the comparison raises no exception of its own.  It returns a
    tuple, or lets through the [InvalidVersion] of the analysis of two
    contents that are not empty.  For two such contents the tuple is that
    of the analysis with [None] in the place of the error: the place holds
    a message only for the prompt. *)
Theorem compare_requirements_outcome w file1_content file2_content :
  (∃ outcome,
     compare_requirements w file1_content file2_content = Ok outcome
     ∧ (outcome.2 = VNone
        ∨ outcome.2
          = VStr "Please provide content for both requirements.txt files.")
     ∧ (truthy_content file1_content = true →
        truthy_content file2_content = true →
        analyze_requirements w (default "" file1_content)
                               (default "" file2_content)
          = Ok outcome.1
        ∧ outcome.2 = VNone))
  ∨ (compare_requirements w file1_content file2_content
       = Raise InvalidVersion
     ∧ truthy_content file1_content = true
     ∧ truthy_content file2_content = true
     ∧ analyze_requirements w (default "" file1_content)
                              (default "" file2_content)
       = Raise InvalidVersion).
Proof.
  destruct (truthy_content file1_content) eqn:Hc1; cycle 1.
  { left. eexists. split; [by unfold compare_requirements; rewrite Hc1|].
    split; [by right|done]. }
  destruct (truthy_content file2_content) eqn:Hc2; cycle 1.
  { left. eexists.
    split; [by unfold compare_requirements; rewrite Hc1, Hc2|].
    split; [by right|done]. }
  apply truthy_content_Some in Hc1 as (file1 & -> & Hfile1).
  apply truthy_content_Some in Hc2 as (file2 & -> & Hfile2).
  destruct (analyze_requirements_outcome w file1 file2)
    as [(t & m & d & a & Hanalyze)|(Hanalyze & _)].
  - left. eexists. split; [by apply compare_requirements_analyze|].
    split; [by left|]. done.
  - right. split; [by apply compare_requirements_raise|]. done.
Qed.

Lemma merged_manifest_truthy (rows : list Row) :
  rows ≠ [] → Py.truthy_str (merged_manifest rows) = true.
Proof.
  destruct rows as [|r rows]; [done|]. intros _.
  unfold merged_manifest. rewrite fmap_cons.
  assert (∀ a b, Py.truthy_str (a ++ "==" ++ b) = true) as Hline
    by (intros a b; by destruct a).
  assert (∀ a b, Py.truthy_str a = true → Py.truthy_str (a ++ b) = true)
    as Happ by (intros a b; by destruct a).
  simpl. destruct (_ <$> rows); [apply Hline|apply Happ, Hline].
Qed.

(** X11: the interface for two contents that are not empty and parse.
    The table holds the rows; the accordion of the details is open exactly
    when a row is not resolved; the box of the merged manifest holds the
    manifest (and there is a file to download) when every row is resolved
    and there is a row, and the words "Not all dependencies could be
    resolved." otherwise, also when the manifests name no package.  (The
    index lists versions only for the packages of the manifests.) *)
Theorem update_outputs_report w file1 file2 deps1 deps2 :
  Py.truthy_str file1 = true → Py.truthy_str file2 = true →
  parse_requirements file1 = (Some deps1, None) →
  parse_requirements file2 = (Some deps2, None) →
  lists_versions w deps1 deps2 →
  ∃ rows merged download_file open,
    update_outputs w (Some file1) (Some file2)
      = Shown (VFrame rows, VStr merged, download_file, open, VNone)
    ∧ Package <$> rows ≡ₚ elements (dom deps1 ∪ dom deps2)
    ∧ (open = false ↔ Forall (λ r, Status r = RESOLVED) rows)
    ∧ (open = false → rows ≠ [] →
       merged = merged_manifest rows ∧ download_file = VStr (temp_file w))
    ∧ (open = true ∨ rows = [] →
       merged = NOT_ALL_RESOLVED ∧ download_file = VNone).
Proof.
  intros Hfile1 Hfile2 Hparse1 Hparse2 Hlisted.
  pose proof (analyze_requirements_report w _ _ _ _ Hparse1 Hparse2 Hlisted)
    as Hanalyze.
  unfold report in Hanalyze.
  set (rows := row_of w deps1 deps2 <$> packages deps1 deps2) in *.
  assert (Package <$> rows ≡ₚ elements (dom deps1 ∪ dom deps2)) as Hpkgs.
  { subst rows. rewrite packages_row_of. apply packages_Permutation. }
  pose proof (is_resolved_Forall rows) as Hall.
  unfold update_outputs.
  destruct (forallb is_resolved rows) eqn:Hres; simpl in Hanalyze.
  - destruct (Py.truthy_list rows) eqn:Hrows.
    + rewrite (compare_requirements_analyze _ _ _ _ _ _ _ Hfile1 Hfile2
                 Hanalyze). simpl.
      assert (rows ≠ []) as Hne by (by destruct rows).
      rewrite (merged_manifest_truthy rows Hne).
      eexists _, _, _, _. split; [done|]. split; [done|].
      split; [by rewrite <-Hall|]. split; [done|].
      by intros [?|?].
    + rewrite (compare_requirements_analyze _ _ _ _ _ _ _ Hfile1 Hfile2
                 Hanalyze). simpl.
      assert (rows = []) as Hnil by (by destruct rows).
      eexists _, _, _, _. split; [done|]. split; [done|].
      split; [by rewrite <-Hall|]. split; [|done].
      by intros _ ?.
  - rewrite (compare_requirements_analyze _ _ _ _ _ _ _ Hfile1 Hfile2
               Hanalyze). simpl.
    eexists _, _, _, _. split; [done|]. split; [done|].
    split; [by rewrite <-Hall|]. split; [done|]. done.
Qed.

(** X12: the interface when a content is not empty and does not parse.
    The box of the error stays empty; the message of the parser goes to
    the place of the file to download, the box of the merged manifest
    says "Not all dependencies could be resolved." and the accordion is
    open. *)
Theorem update_outputs_syntax_error w file1 file2 msg :
  Py.truthy_str file1 = true → Py.truthy_str file2 = true →
  parse_requirements file1 = (None, Some msg)
    ∨ (is_Some (parse_requirements file1).1
       ∧ parse_requirements file2 = (None, Some msg)) →
  update_outputs w (Some file1) (Some file2)
    = Shown (VNone, VStr NOT_ALL_RESOLVED, VStr msg, true, VNone).
Proof.
  intros Hfile1 Hfile2 Herror.
  assert (analyze_requirements w file1 file2
          = Ok (VNone, VNone, VStr msg, false)) as Hanalyze.
  { destruct Herror as [Hparse1|[[d1 Hd1] Hparse2]].
    - by apply analyze_requirements_first_error.
    - apply (analyze_requirements_second_error _ _ _ d1); [|done].
      destruct (parse_requirements_shape file1) as [[d Hd]|(m & Hm & _)].
      + rewrite Hd in Hd1. simpl in Hd1. congruence.
      + rewrite Hm in Hd1. done. }
  unfold update_outputs.
  by rewrite (compare_requirements_analyze _ _ _ _ _ _ _ Hfile1 Hfile2
                Hanalyze).
Qed.

(** X13: the interface shows a tuple, or lets through the
    [InvalidVersion] of the analysis of two contents that are not empty;
    the truth values that it takes raise nothing.  Its box of the error
    holds the prompt for the contents when one of them is empty, and
    nothing otherwise.  With the prompt the table and the box of the
    merged manifest are empty and the accordion is open. *)
Theorem update_outputs_error_box w file1_content file2_content :
  (∃ table merged download_file open error,
     update_outputs w file1_content file2_content
       = Shown (table, merged, download_file, open, error)
     ∧ (truthy_content file1_content && truthy_content file2_content = true →
        error = VNone)
     ∧ (truthy_content file1_content && truthy_content file2_content = false →
        error = VStr "Please provide content for both requirements.txt files."
        ∧ table = VNone ∧ merged = VNone ∧ download_file = VNone
        ∧ open = true))
  ∨ (update_outputs w file1_content file2_content = Uncaught InvalidVersion
     ∧ truthy_content file1_content = true
     ∧ truthy_content file2_content = true
     ∧ analyze_requirements w (default "" file1_content)
                              (default "" file2_content)
       = Raise InvalidVersion).
Proof.
  unfold update_outputs.
  destruct (truthy_content file1_content) eqn:Hc1; cycle 1.
  { left. unfold compare_requirements. rewrite Hc1. simpl.
    eexists _, _, _, _, _. split; [done|]. by split. }
  destruct (truthy_content file2_content) eqn:Hc2; cycle 1.
  { left. unfold compare_requirements. rewrite Hc1, Hc2. simpl.
    eexists _, _, _, _, _. split; [done|]. by split. }
  apply truthy_content_Some in Hc1 as (file1 & -> & Hfile1).
  apply truthy_content_Some in Hc2 as (file2 & -> & Hfile2).
  destruct (analyze_requirements_outcome w file1 file2)
    as [(t & m & d & a & Hanalyze)|(Hanalyze & _)]; cycle 1.
  { right.
    by rewrite (compare_requirements_raise _ _ _ _ Hfile1 Hfile2 Hanalyze). }
  left.
  rewrite (compare_requirements_analyze _ _ _ _ _ _ _ Hfile1 Hfile2 Hanalyze).
  simpl.
  destruct (analyze_requirements_places _ _ _ _ _ _ _ Hanalyze)
    as [_ [->|[text ->]]]; simpl;
    eexists _, _, _, _, _; (split; [done|]); by split.
Qed.
End interface_facts.

(** ** More scenarios on final releases *)

Section scenario_more_facts.
Import Scenario Scenario_more.

(** X1 on a text whose second and third lines have invalid clauses. *)
Example parse_requirements_broken :
  parse_requirements broken = (None, Some "Invalid specifier for pkg: @@@bad").
Proof. reflexivity. Qed.

(** X2 on a text that starts with a comment. *)
Lemma parse_requirements_ignores_line_witness :
  Py.splitlines commented
    = ["# pinned"; "flask==1.0"; "  "; "./local"; "Requests"]
  ∧ Py.splitlines uncommented = ["flask==1.0"; "  "; "./local"; "Requests"]
  ∧ Py.startswith "#" (Py.strip "# pinned") = true
  ∧ parse_requirements uncommented = parse_requirements commented.
Proof.
  split; [reflexivity|]. split; [reflexivity|]. split; [reflexivity|].
  apply (parse_requirements_ignores_line commented uncommented
           [] "# pinned" ["flask==1.0"; "  "; "./local"; "Requests"]).
  - reflexivity.
  - reflexivity.
  - right. left. reflexivity.
Defined.

(** X3 on the same text. *)
Lemma parse_requirements_keys_witness :
  parse_requirements commented = (Some flask_and_requests, None)
  ∧ ∀ p,
      (p ∈ dom flask_and_requests ↔
       ∃ line, line ∈ Py.splitlines commented ∧ line_package line = Some p)
      ∧ (p ∈ dom flask_and_requests →
         p ≠ "" ∧ Py.lower p = p ∧ all_chars is_key_char p = true).
Proof.
  split; [reflexivity|].
  apply (parse_requirements_keys commented flask_and_requests). reflexivity.
Defined.

(** X5 on two orders of the same versions. *)
Lemma select_version_any_order_witness :
  listed flask_catalog "flask"
    = Some [Pep440.Build_version [1; 0]; Pep440.Build_version [2; 0];
            Pep440.Build_version [1; 1]]%N
  ∧ listed flask_catalog_reordered "flask"
    = Some [Pep440.Build_version [1; 1]; Pep440.Build_version [1; 0];
            Pep440.Build_version [2; 0]]%N
  ∧ [Pep440.Build_version [1; 0]; Pep440.Build_version [2; 0];
     Pep440.Build_version [1; 1]]%N
    ≡ₚ [Pep440.Build_version [1; 1]; Pep440.Build_version [1; 0];
        Pep440.Build_version [2; 0]]%N
  ∧ ∃ selection selection' reason reason',
      select_version flask_catalog (Some flask_1_0_and_2_0) "flask"
        = Ok (selection, reason)
      ∧ select_version flask_catalog_reordered (Some flask_1_0_and_2_0) "flask"
        = Ok (selection', reason')
      ∧ match selection, selection' with
        | Some ver, Some ver' =>
            version_lt ver ver' = false ∧ version_lt ver' ver = false
        | None, None => reason = reason'
        | _, _ => False
        end.
Proof.
  assert ([Pep440.Build_version [1; 0]; Pep440.Build_version [2; 0];
           Pep440.Build_version [1; 1]]%N
          ≡ₚ [Pep440.Build_version [1; 1]; Pep440.Build_version [1; 0];
              Pep440.Build_version [2; 0]]%N) as Hperm.
  { symmetry.
    apply (Permutation_cons_append
             [Pep440.Build_version [1; 0]; Pep440.Build_version [2; 0]]%N
             (Pep440.Build_version [1; 1]%N)). }
  split; [reflexivity|]. split; [reflexivity|]. split; [exact Hperm|].
  exact (select_version_any_order flask_catalog flask_catalog_reordered
           flask_1_0_and_2_0 "flask" _ _ eq_refl eq_refl Hperm).
Defined.

(** X6 on a package of the first manifest only. *)
Lemma analyze_requirements_single_manifest_witness :
  parse_requirements "flask==1.0" = (Some flask_1_0, None)
  ∧ parse_requirements "requests>=2.5" = (Some requests_2_5, None)
  ∧ lists_versions flask_catalog flask_1_0 requests_2_5
  ∧ flask_1_0 !! "flask" = Some {| _specs := [clause Pep440.Equal [1; 0]%N] |}
  ∧ requests_2_5 !! "flask" = None
  ∧ ∃ rows resolved_content download_file all_resolved selection reason,
      analyze_requirements flask_catalog "flask==1.0" "requests>=2.5"
        = Ok (VFrame rows, resolved_content, download_file, all_resolved)
      ∧ select_version flask_catalog
          (Some {| _specs := [clause Pep440.Equal [1; 0]%N] |}) "flask"
        = Ok (selection, reason)
      ∧ {| Package := "flask";
           Status := status_text selection;
           Compatible_Interval :=
             if SpecifierSet_bool {| _specs := [clause Pep440.Equal [1; 0]%N] |}
             then SpecifierSet_str {| _specs := [clause Pep440.Equal [1; 0]%N] |}
             else "Any version";
           Selected_Version := selected_text selection;
           Reason := reason |} ∈ rows.
Proof.
  assert (lists_versions flask_catalog flask_1_0 requests_2_5) as Hlisted.
  { intros pkg. unfold flask_1_0, requests_2_5.
    rewrite !dom_singleton_L, elem_of_union, !elem_of_singleton.
    intros [->| ->]; by eexists. }
  split; [reflexivity|]. split; [reflexivity|]. split; [exact Hlisted|].
  split; [reflexivity|]. split; [reflexivity|].
  apply (analyze_requirements_single_manifest flask_catalog
           "flask==1.0" "requests>=2.5" flask_1_0 requests_2_5 "flask"
           {| _specs := [clause Pep440.Equal [1; 0]%N] |}).
  - reflexivity.
  - reflexivity.
  - exact Hlisted.
  - left. split; reflexivity.
Defined.

(** X7 on scenario A. *)
Lemma analyze_requirements_rows_witness :
  parse_requirements "requests>=2.0,<3.0" = (Some requests_2_x, None)
  ∧ parse_requirements "requests>=2.5" = (Some requests_2_5, None)
  ∧ lists_versions requests_catalog requests_2_x requests_2_5
  ∧ ∃ rows resolved_content download_file all_resolved,
      analyze_requirements requests_catalog "requests>=2.0,<3.0" "requests>=2.5"
        = Ok (VFrame rows, resolved_content, download_file, all_resolved)
      ∧ Forall (λ r,
          (Status r = RESOLVED
           ∧ ∃ ver,
               ver ∈ default [] (listed requests_catalog (Package r))
               ∧ SpecifierSet_contains
                   (SpecifierSet_and
                      (default unconstrained (requests_2_x !! Package r))
                      (default unconstrained (requests_2_5 !! Package r)))
                   (version_str ver) = true
               ∧ Selected_Version r = version_str ver
               ∧ Reason r = "Selected largest version: " ++ version_str ver)
          ∨ (Status r = UNRESOLVED
             ∧ Selected_Version r = "-"
             ∧ (Reason r = "No versions available"
                ∨ Reason r
                  = "No compatible version found in available versions")))
          rows.
Proof.
  assert (lists_versions requests_catalog requests_2_x requests_2_5)
    as Hlisted.
  { intros pkg. unfold requests_2_x, requests_2_5.
    rewrite !dom_singleton_L, elem_of_union, !elem_of_singleton.
    intros [->| ->]; by eexists. }
  split; [reflexivity|]. split; [reflexivity|]. split; [exact Hlisted|].
  apply (analyze_requirements_rows requests_catalog
           "requests>=2.0,<3.0" "requests>=2.5" requests_2_x requests_2_5);
    [reflexivity|reflexivity|exact Hlisted].
Defined.

(** X8 on scenario B and a catalog that also knows [requests]. *)
Lemma analyze_requirements_catalog_local_witness :
  parse_requirements "flask==1.0" = (Some flask_1_0, None)
  ∧ parse_requirements "flask==2.0" = (Some flask_2_0, None)
  ∧ (∀ pkg, pkg ∈ dom flask_1_0 ∪ dom flask_2_0 →
            pypi_releases larger_catalog pkg = pypi_releases flask_catalog pkg)
  ∧ temp_file larger_catalog = temp_file flask_catalog
  ∧ analyze_requirements larger_catalog "flask==1.0" "flask==2.0"
    = analyze_requirements flask_catalog "flask==1.0" "flask==2.0".
Proof.
  assert (∀ pkg, pkg ∈ dom flask_1_0 ∪ dom flask_2_0 →
                 pypi_releases larger_catalog pkg
                 = pypi_releases flask_catalog pkg) as Hsame.
  { intros pkg. unfold flask_1_0, flask_2_0.
    rewrite !dom_singleton_L, elem_of_union, !elem_of_singleton.
    by intros [->| ->]. }
  split; [reflexivity|]. split; [reflexivity|].
  split; [exact Hsame|]. split; [reflexivity|].
  apply (analyze_requirements_catalog_local flask_catalog larger_catalog
           "flask==1.0" "flask==2.0" flask_1_0 flask_2_0);
    [reflexivity|reflexivity|exact Hsame|reflexivity].
Defined.

(** X11 on scenario A. *)
Lemma update_outputs_report_witness :
  parse_requirements "requests>=2.0,<3.0" = (Some requests_2_x, None)
  ∧ parse_requirements "requests>=2.5" = (Some requests_2_5, None)
  ∧ lists_versions requests_catalog requests_2_x requests_2_5
  ∧ ∃ rows merged download_file open,
      update_outputs requests_catalog
          (Some "requests>=2.0,<3.0") (Some "requests>=2.5")
        = Shown (VFrame rows, VStr merged, download_file, open, VNone)
      ∧ Package <$> rows ≡ₚ elements (dom requests_2_x ∪ dom requests_2_5)
      ∧ (open = false ↔ Forall (λ r, Status r = RESOLVED) rows)
      ∧ (open = false → rows ≠ [] →
         merged = merged_manifest rows
         ∧ download_file = VStr (temp_file requests_catalog))
      ∧ (open = true ∨ rows = [] →
         merged = NOT_ALL_RESOLVED ∧ download_file = VNone).
Proof.
  assert (lists_versions requests_catalog requests_2_x requests_2_5)
    as Hlisted.
  { intros pkg. unfold requests_2_x, requests_2_5.
    rewrite !dom_singleton_L, elem_of_union, !elem_of_singleton.
    intros [->| ->]; by eexists. }
  split; [reflexivity|]. split; [reflexivity|]. split; [exact Hlisted|].
  apply (update_outputs_report requests_catalog
           "requests>=2.0,<3.0" "requests>=2.5" requests_2_x requests_2_5);
    [reflexivity|reflexivity|reflexivity|reflexivity|exact Hlisted].
Defined.

Example update_outputs_scenario_A :
  update_outputs requests_catalog
      (Some "requests>=2.0,<3.0") (Some "requests>=2.5")
    = Shown (VFrame [{| Package := "requests"; Status := RESOLVED;
                        Compatible_Interval := "<3.0,>=2.0,>=2.5";
                        Selected_Version := "2.9.0";
                        Reason := "Selected largest version: 2.9.0" |}],
             VStr "requests==2.9.0",
             VStr "/tmp/resolved_requirements_0.txt", false, VNone).
Proof. vm_compute. reflexivity. Qed.

(** Texts that name no package: everything is resolved, and the box says
    that not everything is. *)
Example update_outputs_comments_only :
  update_outputs flask_catalog (Some "# nothing") (Some "# here")
    = Shown (VFrame [], VStr NOT_ALL_RESOLVED, VNone, false, VNone).
Proof. vm_compute. reflexivity. Qed.

(** The exception of a key that is not a version reaches the interface. *)
Example update_outputs_invalid_key :
  update_outputs pytz_catalog (Some "obscurepkg>=1.0") (Some "pytz")
    = Uncaught InvalidVersion.
Proof. reflexivity. Qed.

(** X12 on a first text with an invalid clause. *)
Lemma update_outputs_syntax_error_witness :
  parse_requirements "pkg@@@bad"
    = (None, Some "Invalid specifier for pkg: @@@bad")
  ∧ update_outputs flask_catalog (Some "pkg@@@bad") (Some "flask")
    = Shown (VNone, VStr NOT_ALL_RESOLVED,
             VStr "Invalid specifier for pkg: @@@bad", true, VNone).
Proof.
  split; [reflexivity|].
  apply (update_outputs_syntax_error flask_catalog "pkg@@@bad" "flask").
  - reflexivity.
  - reflexivity.
  - left. reflexivity.
Defined.

End scenario_more_facts.
